(** * fpid build script (build.py): a shallow embedding and its properties

    The script drives a Rust build: it reads a TOML configuration,
    decides between a native and a cross (Android NDK) build, writes
    the cross toolchain into [os.environ], and then runs
    rustup / cargo fmt / cargo clippy / cargo build as subprocesses
    before copying the produced binary to the output directory.

    Modelling choices.
    - Python [str] is [string]: the UTF-8 bytes of the text.  Every
      string operation of the script that is sensitive to the difference
      between bytes and code points acts on ASCII text ([".cmd"],
      ["windows"], the triple suffixes), so bytes and code points agree.
    - The configuration keys that hold text ([android_ndk_home],
      [llvm_path], [target], [binary_name], [output_dir]) hold strings,
      as the schema of the file says; [android_api_level], which the
      script passes through [int()], is any value, described by what
      [int()] makes of it.
    - [os.environ] is a [gmap string string]; an assignment to it
      succeeds (a value with an embedded NUL, which the operating system
      refuses, is outside the model).
    - The disk is the predicate [os.path.exists] computes.
    - A subprocess is an arbitrary function of the world it is started
      in and of its command line; it yields an outcome and a new disk.
      [subprocess.run] ends in one of three ways: exit status 0, a
      non-zero exit status, or no such executable.  Its other exceptions
      (a file without execute permission, for instance) are outside the
      model.
    - A file operation of [os] or [shutil] either raises or has its
      effect on the path it names.  What else it may leave on disk (the
      parents [os.makedirs] creates, the partial effect of an operation
      that fails) is not tracked, and no theorem bounds it.
    - Python exceptions are an explicit result type; the methods of
      [GPUGovernorBuilder] live in a state-and-exception monad over the
      world.
    - Console output ([print]) is not modelled. *)

From stdpp Require Import strings gmap pretty list.

Local Open Scope string_scope.
Local Open Scope list_scope.

(** ** Python string operations *)

Module Py.

(** [s.endswith(suf)] *)
Fixpoint endswith (s suf : string) : bool :=
  String.eqb s suf ||
  match s with
  | EmptyString => false
  | String _ s' => endswith s' suf
  end.

(** [sub in s] *)
Fixpoint contains (sub s : string) : bool :=
  String.prefix sub s ||
  match s with
  | EmptyString => false
  | String _ s' => contains sub s'
  end.

(** [s[:k]] for [0 <= k] *)
Fixpoint take (k : nat) (s : string) : string :=
  match k, s with
  | S k', String c s' => String c (take k' s')
  | _, _ => EmptyString
  end.

(** [s[:-n]] for a positive literal [n] *)
Definition drop_last (n : nat) (s : string) : string :=
  take (String.length s - n) s.

(** [sep.join(parts)] *)
Fixpoint join (sep : string) (parts : list string) : string :=
  match parts with
  | [] => ""
  | [p] => p
  | p :: ps => p +:+ sep +:+ join sep ps
  end.

(** The one-byte whitespace characters of [str.split()]: space, the
    control characters \t \n \v \f \r and the separators 0x1c-0x1f. *)
Definition isspace (c : Ascii.ascii) : bool :=
  let n := Ascii.nat_of_ascii c in
  (n =? 32)%nat || ((9 <=? n)%nat && (n <=? 13)%nat)
                || ((28 <=? n)%nat && (n <=? 31)%nat).

(** The number of bytes of the whitespace character [s] starts with, 0
    when it starts with none.  Besides the one-byte characters these are,
    in UTF-8: U+0085 and U+00A0 (C2 85, C2 A0), U+1680 (E1 9A 80),
    U+2000-U+200A, U+2028, U+2029 and U+202F (E2 80 80-8A, A8, A9, AF),
    U+205F (E2 81 9F) and U+3000 (E3 80 80). *)
Definition whitespace_width (s : string) : nat :=
  match s with
  | EmptyString => 0
  | String c1 rest =>
      if isspace c1 then 1 else
      let n1 := Ascii.nat_of_ascii c1 in
      match rest with
      | EmptyString => 0
      | String c2 rest2 =>
          let n2 := Ascii.nat_of_ascii c2 in
          if (n1 =? 194)%nat && ((n2 =? 133)%nat || (n2 =? 160)%nat) then 2
          else
            match rest2 with
            | EmptyString => 0
            | String c3 _ =>
                let n3 := Ascii.nat_of_ascii c3 in
                if ((n1 =? 225)%nat && (n2 =? 154)%nat && (n3 =? 128)%nat)
                   || ((n1 =? 226)%nat && (n2 =? 128)%nat
                       && (((128 <=? n3)%nat && (n3 <=? 138)%nat)
                           || (n3 =? 168)%nat || (n3 =? 169)%nat
                           || (n3 =? 175)%nat))
                   || ((n1 =? 226)%nat && (n2 =? 129)%nat && (n3 =? 159)%nat)
                   || ((n1 =? 227)%nat && (n2 =? 128)%nat && (n3 =? 128)%nat)
                then 3 else 0
            end
      end
  end.

(** [s.split()]: maximal runs of non-whitespace.  [cur] is the word
    being read, reversed; [skip] counts the bytes still to pass of a
    whitespace character that has been recognised. *)
Fixpoint split_go (skip : nat) (cur : list Ascii.ascii) (s : string)
    : list string :=
  let flush :=
    match cur with
    | [] => []
    | _ => [String.string_of_list_ascii (rev cur)]
    end in
  match s with
  | EmptyString => flush
  | String c s' =>
      match skip with
      | S k => split_go k cur s'
      | O =>
          match whitespace_width s with
          | O => split_go 0 (c :: cur) s'
          | S k => flush ++ split_go k [] s'
          end
      end
  end.

Definition split (s : string) : list string := split_go 0 [] s.

(** [x in l] for a list of strings *)
Definition mem (x : string) (l : list string) : bool :=
  existsb (String.eqb x) l.

(** Truth value of an optional string: [None] and [""] are false. *)
Definition truthy (o : option string) : bool :=
  match o with
  | Some s => negb (String.eqb s "")
  | None => false
  end.

(** [f"{o}"] and [str(o)] of an optional string.  The script also hands
    these values to [os.path.exists]; it does so only in cross mode,
    where the constructor has made sure both paths are strings. *)
Definition str (o : option string) : string :=
  match o with
  | Some s => s
  | None => "None"
  end.

(** [f"{n}"] of an integer *)
Definition str_int (n : Z) : string := pretty n.

End Py.

(** ** Configuration *)

(** The value found under [android_api_level], by what [int()] makes of
    it (line 43): the integer it converts to (an integer, a boolean, a
    finite float, the text of a decimal numeral), or the exception it
    raises: [ValueError] for other text and for a NaN, [TypeError] for
    an array, a table or a date, [OverflowError] for an infinite
    float. *)
Inductive IntArg :=
| IntOk (n : Z)
| IntValueError (msg : string)
| IntTypeError
| IntOverflowError.

(** The [paths] table of the configuration file, as parsed.  A key that
    is not present is [None]. *)
Record Paths := mkPaths {
  p_android_ndk_home : option string;
  p_llvm_path : option string;
  p_android_api_level : option IntArg;
  p_target : option string;
  p_binary_name : option string;
  p_output_dir : option string
}.

(** The parsed file: the [paths] table may itself be absent. *)
Record Config := mkConfig { cfg_paths : option Paths }.

Definition empty_paths : Paths := mkPaths None None None None None None.

(** [config.get('paths', {})] *)
Definition get_paths (c : Config) : Paths := default empty_paths (cfg_paths c).

(** The attributes of a [GPUGovernorBuilder] instance. *)
Record Builder := mkBuilder {
  android_ndk_home : option string;
  llvm_path : option string;
  android_api_level : Z;
  target : string;
  binary_name : string;
  output_dir : string;
  native_build : bool
}.

(** The suffix test of [__init__] (lines 51-52). *)
Definition looks_native (t : string) : bool :=
  Py.endswith t "windows-msvc" || Py.endswith t "windows-gnu"
  || Py.endswith t "unknown-linux-gnu".

(** The parenthesis after [and not] (lines 54-57); [and] short-circuits,
    so a path is only probed on disk when it is a non-empty string. *)
Definition toolchain_present (exists_ : string -> bool)
    (ndk llvm : option string) : bool :=
  Py.truthy ndk && Py.truthy llvm
  && exists_ (Py.str ndk) && exists_ (Py.str llvm).

(** [self.native_build] (lines 51-58). *)
Definition resolve_native (exists_ : string -> bool) (t : string)
    (ndk llvm : option string) : bool :=
  looks_native t && negb (toolchain_present exists_ ndk llvm).

(** [int(paths.get('android_api_level', 33))] where it returns: 33 for
    a missing key.  Where [int()] raises the constructor is left at
    line 43, before any attribute below is computed (see [int_error]
    and [__init__]); the value given here for that case is never
    used. *)
Definition api_level (paths : Paths) : Z :=
  match p_android_api_level paths with
  | Some (IntOk n) => n
  | _ => 33%Z
  end.

(** The attribute assignments of [__init__] (lines 38-58), for a
    configuration on which line 43 does not raise. *)
Definition resolve (exists_ : string -> bool) (c : Config) : Builder :=
  let paths := get_paths c in
  let ndk := p_android_ndk_home paths in
  let llvm := p_llvm_path paths in
  let t := default "x86_64-pc-windows-msvc" (p_target paths) in
  {| android_ndk_home := ndk;
     llvm_path := llvm;
     android_api_level := api_level paths;
     target := t;
     binary_name := default "fpid" (p_binary_name paths);
     output_dir := default "output" (p_output_dir paths);
     native_build := resolve_native exists_ t ndk llvm |}.

Definition _is_windows_target (b : Builder) : bool :=
  Py.contains "windows" (target b).

Definition _binary_suffix (b : Builder) : string :=
  if _is_windows_target b then ".exe" else "".

(** ** The world and the exception monad *)

(** What the script can observe and change: the process environment,
    which paths exist, and the [subprocess.run] calls made so far. *)
Record World := mkWorld {
  environ : gmap string string;
  disk : string -> bool;
  calls : list (list string)
}.

Inductive exn :=
| ValueError (msg : string)
| TypeError
| OverflowError
| UnicodeDecodeError
| TOMLDecodeError
| FileNotFoundError
| CalledProcessError
| OSError.

(** The exception line 43 raises, if it raises. *)
Definition int_error (paths : Paths) : option exn :=
  match p_android_api_level paths with
  | Some (IntValueError msg) => Some (ValueError msg)
  | Some IntTypeError => Some TypeError
  | Some IntOverflowError => Some OverflowError
  | _ => None
  end.

Inductive Res (A : Type) :=
| Ret (a : A)
| Raise (e : exn).
Arguments Ret {A} a.
Arguments Raise {A} e.

Definition M (A : Type) : Type := World -> Res A * World.

#[global] Instance M_ret : MRet M := fun A a w => (Ret a, w).

#[global] Instance M_bind : MBind M := fun A B f m w =>
  match m w with
  | (Ret a, w') => f a w'
  | (Raise e, w') => (Raise e, w')
  end.

Definition raise {A} (e : exn) : M A := fun w => (Raise e, w).

Definition get_world : M World := fun w => (Ret w, w).

(** [try: body  except ...: handler]; [handler e = None] when no
    [except] clause matches [e], which then propagates. *)
Definition try_except {A} (body : M A) (handler : exn -> option (M A)) : M A :=
  fun w =>
    match body w with
    | (Ret a, w') => (Ret a, w')
    | (Raise e, w') =>
        match handler e with
        | Some h => h w'
        | None => (Raise e, w')
        end
    end.

(** How a [subprocess.run(..., check=True)] ends. *)
Inductive Outcome :=
| Completed (stdout : string)   (* exit status 0 *)
| NonZeroExit                   (* raises CalledProcessError *)
| NotFound.                     (* no such executable: FileNotFoundError *)

(** The file operations of [os] and [shutil] the script performs. *)
Inductive OsOp :=
| Makedirs (p : string)
| Copy2 (src dst : string)
| Getsize (p : string)
| Rmtree (p : string).

(** What reading and parsing a configuration file yields: the parsed
    table, or the exception of [open] or of the parser.  [Unreadable]
    stands for the exceptions other than the two named ones (a
    directory or a file without read permission: [OSError]; bytes that
    are not UTF-8: [UnicodeDecodeError]). *)
Inductive TomlFile :=
| NoSuchFile
| Malformed
| Unreadable (e : exn)
| Parsed (c : Config).

Definition disk_add (p : string) (d : string -> bool) : string -> bool :=
  fun q => String.eqb q p || d q.

(** Removing a tree removes the path and what lies below it. *)
Definition disk_rmtree (p : string) (d : string -> bool) : string -> bool :=
  fun q => d q && negb (String.eqb q p || String.prefix (p +:+ "/") q).

Definition set_environ (k v : string) : M unit :=
  fun w => (Ret tt, mkWorld (<[k := v]> (environ w)) (disk w) (calls w)).

Definition set_disk (d : string -> bool) : M unit :=
  fun w => (Ret tt, mkWorld (environ w) d (calls w)).

(** [os.path.exists(p)] *)
Definition path_exists (p : string) : M bool :=
  fun w => (Ret (disk w p), w).

(** The linker the composer selects (lines 82-88). *)
Definition linker_path (exists_ : string -> bool) (b : Builder) : string :=
  let prebuilt :=
    Py.str (android_ndk_home b) +:+ "/toolchains/llvm/prebuilt/windows-x86_64/bin" in
  let linker :=
    prebuilt +:+ "/aarch64-linux-android" +:+ Py.str_int (android_api_level b)
             +:+ "-clang.cmd" in
  if negb (exists_ linker) then
    let alt := Py.drop_last 4 linker +:+ ".bat" in
    if exists_ alt then alt else linker
  else linker.

(** The dictionary [env_vars] before [PATH] is added (lines 79-99), in
    insertion order. *)
Definition cross_env_vars (exists_ : string -> bool) (b : Builder)
    : list (string * string) :=
  [ ("ANDROID_NDK_HOME", Py.str (android_ndk_home b));
    ("LLVM_PATH", Py.str (llvm_path b));
    ("CARGO_TARGET_AARCH64_LINUX_ANDROID_LINKER", linker_path exists_ b);
    ("CARGO_TARGET_AARCH64_LINUX_ANDROID_AR",
       Py.str (llvm_path b) +:+ "/bin/llvm-ar.exe");
    ("LIBCLANG_PATH", Py.str (llvm_path b) +:+ "/bin");
    ("BINDGEN_EXTRA_CLANG_ARGS",
       "--target=aarch64-linux-android -I" +:+ Py.str (android_ndk_home b)
       +:+ "/toolchains/llvm/prebuilt/windows-x86_64/sysroot/usr/include") ].

(** The value given to [PATH] (lines 104-109). *)
Definition new_path (b : Builder) (current_path : string) : string :=
  Py.join ";"
    [ Py.str (llvm_path b) +:+ "/bin";
      Py.str (android_ndk_home b) +:+ "/toolchains/llvm/prebuilt/windows-x86_64/bin";
      current_path ].

(** [env_vars] as the final loop sees it. *)
Definition env_vars (w : World) (b : Builder) : list (string * string) :=
  let current_path := default "" (environ w !! "PATH") in
  if negb (native_build b) then
    cross_env_vars (disk w) b ++ [("PATH", new_path b current_path)]
  else [].

(** [for key, value in env_vars.items(): os.environ[key] = str(value)] *)
Fixpoint set_all (kvs : list (string * string)) : M unit :=
  match kvs with
  | [] => mret tt
  | (k, v) :: rest => set_environ k v ;; set_all rest
  end.

Definition _setup_environment (b : Builder) : M unit :=
  w ← get_world;
  set_all (env_vars w b).

(** The list [missing_deps] of [_check_dependencies] (lines 118-129). *)
Definition missing_deps (exists_ : string -> bool) (b : Builder) : list string :=
  let dependencies :=
    if native_build b then []
    else [ (android_ndk_home b, "Android NDK"); (llvm_path b, "LLVM") ] in
  flat_map (fun '(path, name) =>
              if negb (exists_ (Py.str path))
              then [name +:+ ": " +:+ Py.str path] else [])
           dependencies.

Definition _check_dependencies (b : Builder) : M bool :=
  w ← get_world;
  match missing_deps (disk w) b with
  | [] => mret true
  | _ :: _ => mret false
  end.

(** ** The pipeline *)

Section Script.

(** The outside world: what a subprocess does, which file operations
    fail, and what the configuration files hold. *)
Variable run_process : World -> list string -> Outcome * (string -> bool).
Variable os_error : World -> OsOp -> bool.
Variable read_toml : string -> TomlFile.

(** [subprocess.run(cmd, check=True, ...)], returning [result.stdout]. *)
Definition subprocess_run (cmd : list string) : M string :=
  fun w =>
    let '(o, d) := run_process w cmd in
    let w' := mkWorld (environ w) d (calls w ++ [cmd]) in
    match o with
    | Completed out => (Ret out, w')
    | NonZeroExit => (Raise CalledProcessError, w')
    | NotFound => (Raise FileNotFoundError, w')
    end.

(** A file operation: it raises [OSError] or has its effect on disk. *)
Definition os_op (op : OsOp) : M unit :=
  fun w =>
    if os_error w op then (Raise OSError, w)
    else
      let d :=
        match op with
        | Makedirs p => disk_add p (disk w)
        | Copy2 _ dst => disk_add dst (disk w)
        | Getsize _ => disk w
        | Rmtree p => disk_rmtree p (disk w)
        end in
      (Ret tt, mkWorld (environ w) d (calls w)).

Definition _toml_load_path (path : string) : M Config :=
  match read_toml path with
  | Parsed c => mret c
  | NoSuchFile => raise FileNotFoundError
  | Malformed => raise TOMLDecodeError
  | Unreadable e => raise e
  end.

(** [GPUGovernorBuilder(config_path)] *)
Definition __init__ (config_path : string) : M Builder :=
  config ← _toml_load_path config_path;
  match int_error (get_paths config) with
  | Some e => raise e
  | None => mret tt
  end ;;
  w ← get_world;
  let self := resolve (disk w) config in
  (if negb (native_build self) then
     if negb (Py.truthy (android_ndk_home self)) then
       raise (ValueError "配置文件中缺少 android_ndk_home 路径配置")
     else if negb (Py.truthy (llvm_path self)) then
       raise (ValueError "配置文件中缺少 llvm_path 路径配置")
     else mret tt
   else mret tt) ;;
  _setup_environment self ;;
  mret self.

(** Lines 149-169: the installed-target check.  The query's
    [FileNotFoundError] and [CalledProcessError] are caught; so is every
    exception of the installation. *)
Definition build_target_check (self : Builder) : M unit :=
  try_except
    (stdout ← subprocess_run ["rustup"; "target"; "list"; "--installed"];
     let installed := Py.split stdout in
     if negb (Py.mem (target self) installed) then
       try_except
         (subprocess_run ["rustup"; "target"; "add"; target self] ;; mret tt)
         (fun _ => Some (mret tt))
     else mret tt)
    (fun e =>
       match e with
       | FileNotFoundError => Some (mret tt)
       | CalledProcessError => Some (mret tt)
       | _ => None
       end).

Definition fmt_cmd : list string := ["cargo"; "fmt"; "--check"].
Definition fmt_fix_cmd : list string := ["cargo"; "fmt"].
Definition clippy_cmd : list string :=
  ["cargo"; "clippy"; "--"; "-D"; "warnings"].

(** A stage of [build] either executes [return v] ([Some v]) or falls
    through to the next statement ([None]). *)

(** Lines 176-233: format check, automatic fix, second check. *)
Definition build_fmt (self : Builder) : M (option bool) :=
  try_except
    (subprocess_run fmt_cmd ;; mret None)
    (fun e =>
       match e with
       | FileNotFoundError => Some (mret None)
       | CalledProcessError =>
           Some (try_except
                   (subprocess_run fmt_fix_cmd ;;
                    subprocess_run fmt_cmd ;;
                    mret None)
                   (fun fix_e =>
                      match fix_e with
                      | FileNotFoundError => Some (mret None)
                      | CalledProcessError => Some (mret (Some false))
                      | _ => None
                      end))
       | _ => None
       end).

(** Lines 240-261: clippy. *)
Definition build_clippy (self : Builder) : M (option bool) :=
  try_except
    (subprocess_run clippy_cmd ;; mret None)
    (fun e =>
       match e with
       | FileNotFoundError => Some (mret None)
       | CalledProcessError => Some (mret (Some false))
       | _ => None
       end).

(** Lines 264-267: the build command line. *)
Definition build_cmd (self : Builder) : list string :=
  ["cargo"; "build"; "--release"]
  ++ (if negb (String.eqb (target self) "") then ["--target"; target self]
      else []).

(** Lines 270-287: cargo build; a missing cargo is not caught. *)
Definition build_cargo (self : Builder) : M bool :=
  try_except
    (subprocess_run (build_cmd self) ;; mret true)
    (fun e =>
       match e with
       | CalledProcessError => Some (mret false)
       | _ => None
       end).

Definition build (self : Builder) : M bool :=
  ok ← _check_dependencies self;
  if negb ok then mret false else
  build_target_check self ;;
  r ← build_fmt self;
  match r with
  | Some v => mret v
  | None =>
      r ← build_clippy self;
      match r with
      | Some v => mret v
      | None => build_cargo self
      end
  end.

Definition source_path (self : Builder) : string :=
  "target/" +:+ target self +:+ "/release/" +:+ binary_name self
  +:+ _binary_suffix self.

Definition dest_path (self : Builder) : string :=
  output_dir self +:+ "/" +:+ binary_name self +:+ _binary_suffix self.

Definition copy_binary (self : Builder) : M bool :=
  found ← path_exists (source_path self);
  if negb found then mret false else
  os_op (Makedirs (output_dir self)) ;;
  os_op (Copy2 (source_path self) (dest_path self)) ;;
  os_op (Getsize (dest_path self)) ;;
  mret true.

Definition clean (self : Builder) : M unit :=
  try_except
    (subprocess_run ["cargo"; "clean"] ;; mret tt)
    (fun e =>
       match e with
       | CalledProcessError => Some (mret tt)
       | _ => None
       end) ;;
  present ← path_exists (output_dir self);
  if (present : bool) then os_op (Rmtree (output_dir self)) else mret tt.

Definition build_only_flow (self : Builder) : M bool :=
  ok ← build self;
  if negb ok then mret false else
  ok ← copy_binary self;
  if negb ok then mret false else
  mret true.

(** The parsed command line. *)
Record Args := mkArgs { arg_clean : bool; arg_config : string }.

(** How the process ends: [main] returns, [sys.exit(code)] is called,
    or an exception reaches the top level. *)
Inductive Exit :=
| Returned
| SysExit (code : Z)
| Uncaught (e : exn).

Definition exit_code (x : Exit) : Z :=
  match x with
  | Returned => 0
  | SysExit c => c
  | Uncaught _ => 1
  end.

Definition main (args : Args) (w : World) : Exit * World :=
  match __init__ (arg_config args) w with
  | (Raise e, w1) => (Uncaught e, w1)
  | (Ret builder, w1) =>
      if arg_clean args then
        match clean builder w1 with
        | (Raise e, w2) => (Uncaught e, w2)
        | (Ret _, w2) => (Returned, w2)
        end
      else
        match build_only_flow builder w1 with
        | (Raise e, w2) => (Uncaught e, w2)
        | (Ret ok, w2) =>
            if negb ok then (SysExit 1, w2) else (Returned, w2)
        end
  end.

End Script.

(** ** Facts about the string operations *)

Section StringFacts.

Lemma string_app_cons (c : Ascii.ascii) (s t : string) :
  String c s +:+ t = String c (s +:+ t).
Proof. reflexivity. Qed.

Lemma string_app_nil_l (s : string) : "" +:+ s = s.
Proof. reflexivity. Qed.

Lemma string_app_nil_r (s : string) : s +:+ "" = s.
Proof.
  induction s as [|c s IH]; [reflexivity |].
  now rewrite string_app_cons, IH.
Qed.

Lemma string_app_assoc (s1 s2 s3 : string) :
  (s1 +:+ s2) +:+ s3 = s1 +:+ (s2 +:+ s3).
Proof.
  induction s1 as [|c s1 IH]; [reflexivity |].
  now rewrite !string_app_cons, IH.
Qed.

Lemma string_length_app (s1 s2 : string) :
  String.length (s1 +:+ s2) = String.length s1 + String.length s2.
Proof.
  induction s1 as [|c s1 IH]; [reflexivity |].
  rewrite string_app_cons. simpl. now rewrite IH.
Qed.

(** [String.prefix p s] holds exactly when [s] starts with [p]. *)
Lemma prefix_spec (p s : string) :
  String.prefix p s = true <-> exists post, s = p +:+ post.
Proof.
  revert s. induction p as [|c p IH]; intros s.
  - split; [intros _; exists s; reflexivity | intros _; now destruct s].
  - destruct s as [|d s]; simpl.
    + split; [discriminate | intros [post H]; discriminate].
    + destruct (Ascii.ascii_dec c d) as [->|Hne].
      * rewrite IH. split; intros [post H]; exists post.
        -- now rewrite string_app_cons, H.
        -- rewrite string_app_cons in H. now inversion H.
      * split; [discriminate |].
        intros [post H]. rewrite string_app_cons in H. inversion H; congruence.
Qed.

Lemma endswith_nil (suf : string) :
  Py.endswith "" suf = (String.eqb "" suf || false).
Proof. reflexivity. Qed.

Lemma endswith_cons (c : Ascii.ascii) (s suf : string) :
  Py.endswith (String c s) suf
  = (String.eqb (String c s) suf || Py.endswith s suf).
Proof. reflexivity. Qed.

(** [s.endswith(suf)] holds exactly when [s] is some text followed by
    [suf]. *)
Lemma endswith_spec (s suf : string) :
  Py.endswith s suf = true <-> exists pre, s = pre +:+ suf.
Proof.
  induction s as [|c s IH].
  - rewrite endswith_nil, orb_false_r, String.eqb_eq. split.
    + intros <-. exists "". reflexivity.
    + intros [pre H]. destruct pre; [assumption | discriminate].
  - rewrite endswith_cons, orb_true_iff, String.eqb_eq, IH. split.
    + intros [<- | [pre ->]]; [exists ""; reflexivity |].
      exists (String c pre). reflexivity.
    + intros [pre H]. destruct pre as [|d pre].
      * left. assumption.
      * right. exists pre. rewrite string_app_cons in H. now inversion H.
Qed.

Lemma contains_nil (sub : string) :
  Py.contains sub "" = (String.prefix sub "" || false).
Proof. reflexivity. Qed.

Lemma contains_cons (sub : string) (c : Ascii.ascii) (s : string) :
  Py.contains sub (String c s)
  = (String.prefix sub (String c s) || Py.contains sub s).
Proof. reflexivity. Qed.

(** [sub in s] holds exactly when [sub] occurs somewhere in [s]. *)
Lemma contains_spec (sub s : string) :
  Py.contains sub s = true <-> exists pre post, s = pre +:+ sub +:+ post.
Proof.
  induction s as [|c s IH].
  - rewrite contains_nil, orb_false_r, prefix_spec. split.
    + intros [post H]. exists "", post. assumption.
    + intros (pre & post & H). destruct pre; [|discriminate].
      exists post. assumption.
  - rewrite contains_cons, orb_true_iff, prefix_spec, IH. split.
    + intros [[post H] | (pre & post & ->)].
      * exists "", post. assumption.
      * exists (String c pre), post. reflexivity.
    + intros (pre & post & H). destruct pre as [|d pre].
      * left. exists post. assumption.
      * right. exists pre, post. rewrite string_app_cons in H. now inversion H.
Qed.

Lemma take_app (s t : string) : Py.take (String.length s) (s +:+ t) = s.
Proof.
  induction s as [|c s IH]; [now destruct t |].
  rewrite string_app_cons. simpl. now rewrite IH.
Qed.

(** Cutting a suffix of [n] characters off [s +:+ t], where [t] has
    [n] characters, leaves [s]. *)
Lemma drop_last_app (s t : string) :
  Py.drop_last (String.length t) (s +:+ t) = s.
Proof.
  unfold Py.drop_last. rewrite string_length_app.
  replace (String.length s + String.length t - String.length t)
    with (String.length s) by lia.
  apply take_app.
Qed.

Lemma truthy_spec (o : option string) :
  Py.truthy o = true <-> exists s, o = Some s /\ s <> "".
Proof.
  destruct o as [s|]; simpl.
  - rewrite negb_true_iff, String.eqb_neq. split.
    + intros H. exists s. split; [reflexivity | assumption].
    + intros (s' & [= <-] & H). assumption.
  - split; [discriminate | intros (s & H & _); discriminate].
Qed.

End StringFacts.

(** ** Concrete configurations, disks and processes *)

Module Examples.

(** A world in which nothing exists on disk and nothing has run. *)
Definition empty_disk : string -> bool := fun _ => false.

Definition world0 : World :=
  mkWorld {[ "PATH" := "C:/Windows" ]} empty_disk [].

(** No file operation fails. *)
Definition os_fine : World -> OsOp -> bool := fun _ _ => false.

(** An empty configuration file: every field takes its default. *)
Definition cfg_default : Config := mkConfig None.

(** An Android target with no toolchain path configured. *)
Definition cfg_android_no_paths : Config :=
  mkConfig (Some (mkPaths None None None (Some "aarch64-linux-android")
                          None None)).

(** An Android target with both toolchain paths configured. *)
Definition cfg_android : Config :=
  mkConfig (Some (mkPaths (Some "C:/ndk") (Some "C:/llvm") None
                          (Some "aarch64-linux-android") None None)).

(** Toolchain paths configured, no target: the target is empty. *)
Definition cfg_empty_target : Config :=
  mkConfig (Some (mkPaths (Some "C:/ndk") (Some "C:/llvm") None
                          (Some "") None None)).

Definition toml_of (c : Config) : string -> TomlFile :=
  fun path => if String.eqb path "build_config.toml" then Parsed c else NoSuchFile.

(** The resolved builders. *)
Definition b_default : Builder := resolve empty_disk cfg_default.
Definition b_android : Builder := resolve empty_disk cfg_android.

(** A disk holding the NDK, LLVM and only the [.bat] linker front end. *)
Definition ndk_disk : string -> bool :=
  fun p =>
    String.eqb p "C:/ndk" || String.eqb p "C:/llvm"
    || String.eqb p
         "C:/ndk/toolchains/llvm/prebuilt/windows-x86_64/bin/aarch64-linux-android33-clang.bat".

(** Every command succeeds; rustup reports the default target. *)
Definition all_succeed : World -> list string -> Outcome * (string -> bool) :=
  fun w _ => (Completed "x86_64-pc-windows-msvc", disk w).

(** [cargo fmt --check] always fails; [cargo fmt] and the rest succeed. *)
Definition never_formatted : World -> list string -> Outcome * (string -> bool) :=
  fun w cmd =>
    if decide (cmd = fmt_cmd) then (NonZeroExit, disk w)
    else (Completed "x86_64-pc-windows-msvc", disk w).

(** [cargo fmt --check] fails once, and succeeds after [cargo fmt] ran. *)
Definition formatted_by_fix : World -> list string -> Outcome * (string -> bool) :=
  fun w cmd =>
    if decide (cmd = fmt_cmd) then
      if decide (fmt_fix_cmd ∈ calls w) then (Completed "", disk w)
      else (NonZeroExit, disk w)
    else (Completed "x86_64-pc-windows-msvc", disk w).

(** There is no cargo on this machine. *)
Definition no_cargo : World -> list string -> Outcome * (string -> bool) :=
  fun w cmd =>
    match cmd with
    | "cargo" :: _ => (NotFound, disk w)
    | _ => (Completed "", disk w)
    end.

(** cargo build produces the binary of the default configuration. *)
Definition cargo_builds : World -> list string -> Outcome * (string -> bool) :=
  fun w cmd =>
    match cmd with
    | "cargo" :: "build" :: _ =>
        (Completed "",
         disk_add "target/x86_64-pc-windows-msvc/release/fpid.exe" (disk w))
    | _ => (Completed "x86_64-pc-windows-msvc", disk w)
    end.

End Examples.

(** ** The constructor *)

Section Constructor.

Variable read_toml : string -> TomlFile.

Lemma set_all_frame (kvs : list (string * string)) (w : World) :
  exists env, set_all kvs w = (Ret tt, mkWorld env (disk w) (calls w)).
Proof.
  revert w. induction kvs as [|[k v] kvs IH]; intros w.
  - exists (environ w). now destruct w.
  - destruct (IH (mkWorld (<[k := v]> (environ w)) (disk w) (calls w)))
      as [env Henv].
    exists env. exact Henv.
Qed.

(** The composer always returns, and touches only the environment. *)
Lemma setup_environment_frame (b : Builder) (w : World) :
  exists env,
    _setup_environment b w = (Ret tt, mkWorld env (disk w) (calls w)).
Proof. unfold _setup_environment. apply set_all_frame. Qed.

Lemma setup_environment_native (b : Builder) (w : World) :
  native_build b = true -> _setup_environment b w = (Ret tt, w).
Proof.
  intros Hn. unfold _setup_environment, env_vars, mbind, M_bind, get_world.
  now rewrite Hn.
Qed.

(** What the constructor does, case by case. *)
Lemma init_unfold (path : string) (w : World) :
  __init__ read_toml path w =
  match read_toml path with
  | NoSuchFile => (Raise FileNotFoundError, w)
  | Malformed => (Raise TOMLDecodeError, w)
  | Unreadable e => (Raise e, w)
  | Parsed c =>
      match int_error (get_paths c) with
      | Some e => (Raise e, w)
      | None =>
          let self := resolve (disk w) c in
          if native_build self then (Ret self, w)
          else if negb (Py.truthy (android_ndk_home self)) then
            (Raise (ValueError "配置文件中缺少 android_ndk_home 路径配置"), w)
          else if negb (Py.truthy (llvm_path self)) then
            (Raise (ValueError "配置文件中缺少 llvm_path 路径配置"), w)
          else (Ret self, (_setup_environment self w).2)
      end
  end.
Proof.
  unfold __init__, _toml_load_path, mbind, M_bind, get_world.
  destruct (read_toml path) as [| |e|c]; try reflexivity.
  cbn [mret M_ret raise].
  destruct (int_error (get_paths c)) as [e|]; [reflexivity |].
  cbn [mret M_ret raise]. cbv zeta.
  destruct (native_build (resolve (disk w) c)) eqn:Hn; cbn [negb].
  - cbn [mret M_ret]. rewrite (setup_environment_native _ _ Hn). reflexivity.
  - destruct (Py.truthy (android_ndk_home (resolve (disk w) c)));
      cbn [negb raise]; [|reflexivity].
    destruct (Py.truthy (llvm_path (resolve (disk w) c)));
      cbn [negb raise mret M_ret]; [|reflexivity].
    destruct (setup_environment_frame (resolve (disk w) c) w) as [env ->].
    reflexivity.
Qed.

(** A constructed builder is the resolution of the parsed file against
    the disk of the moment. *)
Lemma init_resolve (path : string) (w w' : World) (self : Builder) :
  __init__ read_toml path w = (Ret self, w') ->
  exists c, read_toml path = Parsed c /\ self = resolve (disk w) c
            /\ disk w' = disk w /\ calls w' = calls w.
Proof.
  rewrite init_unfold. destruct (read_toml path) as [| |e|c]; try discriminate.
  destruct (int_error (get_paths c)) as [e|]; [discriminate |].
  cbv zeta. intros H. exists c. split; [reflexivity |].
  destruct (native_build (resolve (disk w) c)).
  - now inversion H.
  - destruct (negb (Py.truthy (android_ndk_home (resolve (disk w) c))));
      [discriminate |].
    destruct (negb (Py.truthy (llvm_path (resolve (disk w) c))));
      [discriminate |].
    destruct (setup_environment_frame (resolve (disk w) c) w) as [env Henv].
    rewrite Henv in H. now inversion H.
Qed.

End Constructor.

(** ** Mode resolution *)

Section ModeResolution.

(** The target triple ends with one of the three host suffixes. *)
Definition host_like (t : string) : Prop :=
  (exists pre, t = pre +:+ "windows-msvc")
  \/ (exists pre, t = pre +:+ "windows-gnu")
  \/ (exists pre, t = pre +:+ "unknown-linux-gnu").

(** Both toolchain paths are supplied, non-empty, and exist on disk. *)
Definition toolchain_on_disk (exists_ : string -> bool) (self : Builder) : Prop :=
  exists ndk llvm,
    android_ndk_home self = Some ndk /\ llvm_path self = Some llvm
    /\ ndk <> "" /\ llvm <> ""
    /\ exists_ ndk = true /\ exists_ llvm = true.

Lemma looks_native_spec (t : string) : looks_native t = true <-> host_like t.
Proof.
  unfold looks_native, host_like.
  rewrite !orb_true_iff, !endswith_spec. tauto.
Qed.

Lemma toolchain_present_spec (exists_ : string -> bool) (c : Config) :
  toolchain_present exists_
    (android_ndk_home (resolve exists_ c)) (llvm_path (resolve exists_ c)) = true
  <-> toolchain_on_disk exists_ (resolve exists_ c).
Proof.
  unfold toolchain_present, toolchain_on_disk.
  rewrite !andb_true_iff, !truthy_spec. split.
  - intros [[[(ndk & Hn & Hne) (llvm & Hl & Hle)] Hen] Hel].
    rewrite Hn in Hen. rewrite Hl in Hel.
    exists ndk, llvm. auto 10.
  - intros (ndk & llvm & Hn & Hl & Hne & Hle & Hen & Hel).
    rewrite Hn, Hl. simpl. eauto 10.
Qed.

(** C6.  The mode is a function of the configuration and of what exists
    on disk: it is native exactly when the target ends with windows-msvc,
    windows-gnu or unknown-linux-gnu and it is not the case that both
    toolchain paths are supplied, non-empty and present on disk; in every
    other case it is cross. *)
Theorem mode_resolution (exists_ : string -> bool) (c : Config) :
  let self := resolve exists_ c in
  (native_build self = true
   <-> host_like (target self) /\ ~ toolchain_on_disk exists_ self)
  /\ (native_build self = false
      <-> ~ (host_like (target self) /\ ~ toolchain_on_disk exists_ self)).
Proof.
  intros self.
  assert (Hmain : native_build self = true
            <-> host_like (target self) /\ ~ toolchain_on_disk exists_ self).
  { subst self. rewrite <- looks_native_spec, <- toolchain_present_spec.
    cbn [native_build resolve target android_ndk_home llvm_path].
    unfold resolve_native.
    rewrite andb_true_iff, negb_true_iff, not_true_iff_false. tauto. }
  split; [exact Hmain |].
  rewrite <- Hmain, not_true_iff_false. tauto.
Qed.

End ModeResolution.

(** ** Construction failures and dependency validation *)

Section Validation.

Variable run_process : World -> list string -> Outcome * (string -> bool).
Variable read_toml : string -> TomlFile.

(** A path is supplied when the key is present with a non-empty value. *)
Definition supplied (o : option string) : Prop :=
  exists s, o = Some s /\ s <> "".

Lemma not_supplied_truthy (o : option string) :
  ~ supplied o <-> Py.truthy o = false.
Proof.
  unfold supplied. rewrite <- truthy_spec, not_true_iff_false. reflexivity.
Qed.

Lemma supplied_truthy (o : option string) : supplied o <-> Py.truthy o = true.
Proof. unfold supplied. now rewrite truthy_spec. Qed.

(** A build with a missing dependency stops at once: no subprocess, no
    change to the world. *)
Lemma build_missing_deps (self : Builder) (w : World) :
  missing_deps (disk w) self <> [] ->
  build run_process self w = (Ret false, w).
Proof.
  intros Hm. unfold build, _check_dependencies, mbind, M_bind, get_world.
  destruct (missing_deps (disk w) self); [contradiction | reflexivity].
Qed.

Lemma missing_deps_cross (exists_ : string -> bool) (self : Builder)
    (ndk llvm : string) :
  native_build self = false ->
  android_ndk_home self = Some ndk -> llvm_path self = Some llvm ->
  missing_deps exists_ self
  = ((if exists_ ndk then [] else ["Android NDK: " +:+ ndk])
     ++ (if exists_ llvm then [] else ["LLVM: " +:+ llvm]))%list.
Proof.
  intros Hn Hndk Hllvm. unfold missing_deps. rewrite Hn, Hndk, Hllvm.
  cbn [flat_map Py.str].
  destruct (exists_ ndk), (exists_ llvm); reflexivity.
Qed.

(** C3, as the code has it.  For a configuration whose API level is
    absent or converts with [int()], and whose target is not host-like:
    when [android_ndk_home] is absent or empty construction raises a
    [ValueError] naming that key; when it is supplied and [llvm_path] is
    absent or empty the error names [llvm_path]; either way the world is
    left as it was (no variable set, no subprocess).  When both are
    supplied no path error is raised, whether or not the paths exist on
    disk: the constructor goes on to compose the environment, and its
    outcome is that of the composition. *)
Theorem init_missing_path (path : string) (c : Config) (w : World) :
  read_toml path = Parsed c ->
  int_error (get_paths c) = None ->
  let self := resolve (disk w) c in
  ~ host_like (target self) ->
  (~ supplied (android_ndk_home self) ->
   __init__ read_toml path w
   = (Raise (ValueError "配置文件中缺少 android_ndk_home 路径配置"), w))
  /\ (supplied (android_ndk_home self) -> ~ supplied (llvm_path self) ->
      __init__ read_toml path w
      = (Raise (ValueError "配置文件中缺少 llvm_path 路径配置"), w))
  /\ (supplied (android_ndk_home self) -> supplied (llvm_path self) ->
      __init__ read_toml path w
      = match _setup_environment self w with
        | (Ret _, w') => (Ret self, w')
        | (Raise e, w') => (Raise e, w')
        end).
Proof.
  intros Hc Hint self Hhost.
  assert (Hn : native_build self = false).
  { subst self. cbn [native_build resolve target] in *.
    unfold resolve_native.
    destruct (looks_native (default "x86_64-pc-windows-msvc"
                              (p_target (get_paths c)))) eqn:E;
      [|reflexivity].
    apply looks_native_spec in E. contradiction. }
  rewrite init_unfold, Hc, Hint. cbv zeta. fold self. rewrite Hn.
  rewrite !not_supplied_truthy, !supplied_truthy.
  repeat split.
  - intros ->. reflexivity.
  - intros -> ->. reflexivity.
  - intros -> ->. cbn [negb].
    destruct (setup_environment_frame self w) as [env ->].
    reflexivity.
Qed.

(** C4, as the code has it.  A builder constructed in cross mode has both
    toolchain paths supplied and non-empty.  Whether they exist on disk
    is not looked at by the constructor: it is the dependency check at
    the start of [build] that lists every path that does not exist, and
    when one is missing [build] returns False before running anything. *)
Theorem cross_paths_enforced (path : string) (w w' : World) (self : Builder) :
  __init__ read_toml path w = (Ret self, w') ->
  native_build self = false ->
  exists ndk llvm,
    android_ndk_home self = Some ndk /\ llvm_path self = Some llvm
    /\ ndk <> "" /\ llvm <> ""
    /\ missing_deps (disk w') self
       = ((if disk w' ndk then [] else ["Android NDK: " +:+ ndk])
          ++ (if disk w' llvm then [] else ["LLVM: " +:+ llvm]))%list
    /\ (disk w' ndk = false \/ disk w' llvm = false ->
        build run_process self w' = (Ret false, w')).
Proof.
  intros Hinit Hn.
  assert (Hsup : supplied (android_ndk_home self) /\ supplied (llvm_path self)).
  { rewrite init_unfold in Hinit.
    destruct (read_toml path) as [| |e|c]; try discriminate.
    destruct (int_error (get_paths c)) as [e|]; [discriminate |].
    cbv zeta in Hinit.
    destruct (native_build (resolve (disk w) c)) eqn:Hn'.
    - inversion Hinit; subst. congruence.
    - rewrite !supplied_truthy.
      destruct (Py.truthy (android_ndk_home (resolve (disk w) c))) eqn:Ha;
        [|discriminate].
      destruct (Py.truthy (llvm_path (resolve (disk w) c))) eqn:Hl;
        [|discriminate].
      cbn [negb] in Hinit. inversion Hinit; subst. auto. }
  destruct Hsup as [(ndk & Hndk & Hne) (llvm & Hllvm & Hle)].
  exists ndk, llvm.
  pose proof (missing_deps_cross (disk w') self ndk llvm Hn Hndk Hllvm) as Hm.
  repeat (split; [assumption |]).
  intros Hmiss. apply build_missing_deps. rewrite Hm.
  destruct Hmiss as [-> | ->]; [discriminate |].
  destruct (disk w' ndk); discriminate.
Qed.

End Validation.

Section ValidationScenarios.

Import Examples.

(** An Android target with neither path configured: the error names
    [android_ndk_home], and the world is untouched. *)
Lemma init_missing_path_witness :
  __init__ (toml_of cfg_android_no_paths) "build_config.toml" world0
  = (Raise (ValueError "配置文件中缺少 android_ndk_home 路径配置"), world0).
Proof.
  refine (proj1 (init_missing_path (toml_of cfg_android_no_paths)
                   "build_config.toml" cfg_android_no_paths world0
                   eq_refl eq_refl _) _).
  - rewrite <- looks_native_spec. vm_compute. discriminate.
  - rewrite not_supplied_truthy. reflexivity.
Defined.

(** C3 fails as stated, in both readings of "missing".  With both keys
    absent the error cites [android_ndk_home] and not [llvm_path]; with
    both keys naming paths that do not exist, construction succeeds and
    the environment is written. *)
Lemma init_missing_path_counterexample :
  (exists msg,
     __init__ (toml_of cfg_android_no_paths) "build_config.toml" world0
     = (Raise (ValueError msg), world0)
     /\ Py.contains "android_ndk_home" msg = true
     /\ Py.contains "llvm_path" msg = false)
  /\ (disk world0 "C:/ndk" = false /\ disk world0 "C:/llvm" = false
      /\ exists w',
           __init__ (toml_of cfg_android) "build_config.toml" world0
           = (Ret b_android, w')
           /\ environ world0 !! "ANDROID_NDK_HOME" = None
           /\ environ w' !! "ANDROID_NDK_HOME" = Some "C:/ndk"
           /\ environ w' !! "LLVM_PATH" = Some "C:/llvm").
Proof.
  split.
  - eexists. split; [rewrite init_unfold; reflexivity |].
    split; vm_compute; reflexivity.
  - split; [reflexivity |]. split; [reflexivity |].
    eexists. split; [rewrite init_unfold; reflexivity |].
    repeat split; vm_compute; reflexivity.
Qed.

(** The Android configuration whose toolchain is not on disk is
    constructed in cross mode with both paths non-empty. *)
Lemma cross_paths_enforced_witness :
  exists ndk llvm,
    android_ndk_home b_android = Some ndk /\ llvm_path b_android = Some llvm
    /\ ndk <> "" /\ llvm <> ""
    /\ missing_deps
         (disk (_setup_environment b_android world0).2) b_android
       = ((if disk (_setup_environment b_android world0).2 ndk
           then [] else ["Android NDK: " +:+ ndk])
          ++ (if disk (_setup_environment b_android world0).2 llvm
              then [] else ["LLVM: " +:+ llvm]))%list
    /\ (disk (_setup_environment b_android world0).2 ndk = false
        \/ disk (_setup_environment b_android world0).2 llvm = false ->
        build all_succeed b_android (_setup_environment b_android world0).2
        = (Ret false, (_setup_environment b_android world0).2)).
Proof.
  refine (cross_paths_enforced all_succeed (toml_of cfg_android)
            "build_config.toml" world0 _ b_android _ _).
  - rewrite init_unfold. reflexivity.
  - reflexivity.
Defined.

(** C4 fails as stated: with both paths configured and neither on disk
    the constructor returns a cross-mode builder; the failure comes
    later, from [build]. *)
Lemma cross_paths_enforced_counterexample :
  exists w',
    __init__ (toml_of cfg_android) "build_config.toml" world0
    = (Ret b_android, w')
    /\ native_build b_android = false
    /\ android_ndk_home b_android = Some "C:/ndk"
    /\ llvm_path b_android = Some "C:/llvm"
    /\ disk w' "C:/ndk" = false /\ disk w' "C:/llvm" = false
    /\ build all_succeed b_android w' = (Ret false, w').
Proof.
  eexists. split; [rewrite init_unfold; reflexivity |].
  repeat split.
Qed.

End ValidationScenarios.

(** ** The environment composer *)

Section Composer.

Lemma set_all_foldl (kvs : list (string * string)) (w : World) :
  set_all kvs w
  = (Ret tt,
     mkWorld (foldl (fun m kv => <[kv.1 := kv.2]> m) (environ w) kvs)
             (disk w) (calls w)).
Proof.
  revert w. induction kvs as [|[k v] kvs IH]; intros w.
  - now destruct w.
  - change (set_all ((k, v) :: kvs) w)
      with (set_all kvs (mkWorld (<[k := v]> (environ w)) (disk w) (calls w))).
    now rewrite IH.
Qed.

(** The environment a cross-mode composition leaves behind. *)
Lemma setup_environment_cross (b : Builder) (w : World) :
  native_build b = false ->
  _setup_environment b w
  = (Ret tt,
     mkWorld
       (<["PATH" := new_path b (default "" (environ w !! "PATH"))]>
         (foldl (fun m kv => <[kv.1 := kv.2]> m) (environ w)
            (cross_env_vars (disk w) b)))
       (disk w) (calls w)).
Proof.
  intros Hn. unfold _setup_environment, mbind, M_bind, get_world, env_vars.
  rewrite Hn. cbn [negb]. rewrite set_all_foldl, foldl_app. reflexivity.
Qed.

(** The path of the NDK clang front end without its extension. *)
Definition linker_base (ndk : string) (api : Z) : string :=
  ndk +:+ "/toolchains/llvm/prebuilt/windows-x86_64/bin/aarch64-linux-android"
      +:+ Py.str_int api +:+ "-clang".

Lemma linker_primary (ndk : string) (api : Z) :
  (ndk +:+ "/toolchains/llvm/prebuilt/windows-x86_64/bin")
    +:+ "/aarch64-linux-android" +:+ Py.str_int api +:+ "-clang.cmd"
  = linker_base ndk api +:+ ".cmd".
Proof.
  unfold linker_base.
  rewrite !string_app_assoc. reflexivity.
Qed.

(** First match wins, the [.cmd] front end first. *)
Lemma linker_path_spec (exists_ : string -> bool) (b : Builder) (ndk : string) :
  android_ndk_home b = Some ndk ->
  linker_path exists_ b
  = if exists_ (linker_base ndk (android_api_level b) +:+ ".cmd")
    then linker_base ndk (android_api_level b) +:+ ".cmd"
    else if exists_ (linker_base ndk (android_api_level b) +:+ ".bat")
         then linker_base ndk (android_api_level b) +:+ ".bat"
         else linker_base ndk (android_api_level b) +:+ ".cmd".
Proof.
  intros Hndk. unfold linker_path. rewrite Hndk. cbn [Py.str].
  rewrite linker_primary.
  change 4 with (String.length ".cmd"). rewrite drop_last_app.
  destruct (exists_ (linker_base ndk (android_api_level b) +:+ ".cmd"));
    reflexivity.
Qed.

Lemma cmd_is_not_bat (s : string) : s +:+ ".cmd" <> s +:+ ".bat".
Proof. intros H. apply String.app_inj in H. discriminate. Qed.

(** C8.  In cross mode the linker variable holds
    <ndk>/toolchains/llvm/prebuilt/windows-x86_64/bin/aarch64-linux-android<api>-clang
    with the extension [.cmd] or [.bat]: [.bat] exactly when the [.cmd]
    path does not exist and the [.bat] path does, [.cmd] in every other
    case (also when neither exists). *)
Theorem linker_selection (b : Builder) (w : World) (ndk : string) :
  native_build b = false ->
  android_ndk_home b = Some ndk ->
  let base := linker_base ndk (android_api_level b) in
  let w' := (_setup_environment b w).2 in
  exists linker,
    environ w' !! "CARGO_TARGET_AARCH64_LINUX_ANDROID_LINKER" = Some linker
    /\ (linker = base +:+ ".cmd" \/ linker = base +:+ ".bat")
    /\ (linker = base +:+ ".bat"
        <-> disk w (base +:+ ".cmd") = false /\ disk w (base +:+ ".bat") = true)
    /\ (linker = base +:+ ".cmd"
        <-> disk w (base +:+ ".cmd") = true \/ disk w (base +:+ ".bat") = false).
Proof.
  intros Hn Hndk base w'.
  exists (linker_path (disk w) b). split.
  - subst w'. rewrite (setup_environment_cross b w Hn).
    cbn [snd environ cross_env_vars foldl fst].
    now simplify_map_eq.
  - rewrite (linker_path_spec (disk w) b ndk Hndk). fold base.
    pose proof (cmd_is_not_bat base) as Hne.
    destruct (disk w (base +:+ ".cmd")), (disk w (base +:+ ".bat"));
      repeat split; intros; auto; try congruence;
      repeat match goal with
             | H : _ /\ _ |- _ => destruct H
             | H : _ \/ _ |- _ => destruct H
             end; congruence.
Qed.

End Composer.

Section ComposerTwice.

Lemma new_path_unfold (b : Builder) (p : string) :
  new_path b p
  = (Py.str (llvm_path b) +:+ "/bin") +:+ ";"
    +:+ (Py.str (android_ndk_home b)
         +:+ "/toolchains/llvm/prebuilt/windows-x86_64/bin") +:+ ";" +:+ p.
Proof. reflexivity. Qed.

(** The new search path is strictly longer than the inherited one. *)
Lemma new_path_longer (b : Builder) (p : string) :
  String.length p < String.length (new_path b p).
Proof.
  rewrite new_path_unfold, !string_length_app. simpl. lia.
Qed.

Lemma new_path_differs (b : Builder) (p : string) : new_path b p <> p.
Proof.
  intros H. pose proof (new_path_longer b p) as Hl. rewrite H in Hl. lia.
Qed.

(** C2, as the code has it.  Composing a second time, from the
    environment the first composition left, gives every variable other
    than [PATH] the value it already had.  In native mode nothing is
    written at all, so the second state is the first.  In cross mode
    [PATH] is not stable: the second value is the first with the two
    toolchain directories prepended once more, and so differs from it. *)
Theorem compose_twice (b : Builder) (w : World) :
  let w1 := (_setup_environment b w).2 in
  let w2 := (_setup_environment b w1).2 in
  (forall k, k <> "PATH" -> environ w2 !! k = environ w1 !! k)
  /\ (native_build b = true -> w2 = w1)
  /\ (native_build b = false ->
      exists p1,
        environ w1 !! "PATH" = Some p1
        /\ environ w2 !! "PATH"
           = Some (Py.str (llvm_path b) +:+ "/bin;"
                   +:+ Py.str (android_ndk_home b)
                   +:+ "/toolchains/llvm/prebuilt/windows-x86_64/bin;" +:+ p1)
        /\ environ w2 !! "PATH" <> environ w1 !! "PATH").
Proof.
  intros w1 w2. subst w1 w2.
  destruct (native_build b) eqn:Hn.
  - rewrite !(setup_environment_native b _ Hn). cbn [snd].
    repeat split; intros; try reflexivity; discriminate.
  - rewrite !(setup_environment_cross b _ Hn). cbn [snd environ disk calls].
    split; [|split; [discriminate |]].
    + intros k Hk. cbn [cross_env_vars foldl fst snd].
      rewrite !lookup_insert.
      repeat (case_decide; [first [reflexivity | congruence] |]).
      reflexivity.
    + intros _. eexists. split; [apply lookup_insert_eq |].
      rewrite !lookup_insert_eq. cbn [default].
      split.
      * f_equal. rewrite new_path_unfold, !string_app_assoc. reflexivity.
      * intros [= H]. exact (new_path_differs b _ H).
Qed.

End ComposerTwice.

Section ComposerScenarios.

Import Examples.

(** The NDK on disk ships the [.bat] front end only. *)
Definition b_ndk : Builder := resolve ndk_disk cfg_android.
Definition w_ndk : World := mkWorld ∅ ndk_disk [].

(** With only the [.bat] front end on disk, the linker is the [.bat]. *)
Lemma linker_selection_witness :
  environ (_setup_environment b_ndk w_ndk).2
    !! "CARGO_TARGET_AARCH64_LINUX_ANDROID_LINKER"
  = Some "C:/ndk/toolchains/llvm/prebuilt/windows-x86_64/bin/aarch64-linux-android33-clang.bat".
Proof.
  destruct (linker_selection b_ndk w_ndk "C:/ndk" eq_refl eq_refl)
    as (linker & Hlook & _ & Hbat & _).
  rewrite Hlook. f_equal. apply Hbat. split; reflexivity.
Defined.

(** In cross mode the variables other than [PATH] survive a second
    composition unchanged. *)
Lemma compose_twice_witness :
  environ (_setup_environment b_android
             (_setup_environment b_android world0).2).2 !! "LIBCLANG_PATH"
  = environ (_setup_environment b_android world0).2 !! "LIBCLANG_PATH".
Proof.
  apply (proj1 (compose_twice b_android world0)). discriminate.
Defined.

(** C2 fails as stated: composing twice for the Android configuration
    leaves a [PATH] that holds the toolchain directories twice. *)
Lemma compose_twice_counterexample :
  let w1 := (_setup_environment b_android world0).2 in
  let w2 := (_setup_environment b_android w1).2 in
  environ w1 !! "PATH"
  = Some "C:/llvm/bin;C:/ndk/toolchains/llvm/prebuilt/windows-x86_64/bin;C:/Windows"
  /\ environ w2 !! "PATH"
     = Some "C:/llvm/bin;C:/ndk/toolchains/llvm/prebuilt/windows-x86_64/bin;C:/llvm/bin;C:/ndk/toolchains/llvm/prebuilt/windows-x86_64/bin;C:/Windows"
  /\ bool_decide (environ w1 !! "PATH" = environ w2 !! "PATH") = false.
Proof. vm_compute. repeat split. Qed.

End ComposerScenarios.

(** ** The build pipeline *)

Section Pipeline.

Variable run_process : World -> list string -> Outcome * (string -> bool).
Variable os_error : World -> OsOp -> bool.


(** The world after a subprocess that left the disk [d]. *)
Definition after (w : World) (cmd : list string) (d : string -> bool) : World :=
  mkWorld (environ w) d (calls w ++ [cmd]).

(** What is left of [build] once the format gate is passed: the lint
    gate, then the compiler. *)
Definition lint_and_compile (self : Builder) : M bool :=
  r ← build_clippy run_process self;
  match r with
  | Some v => mret v
  | None => build_cargo run_process self
  end.

Lemma subprocess_run_eq (cmd : list string) (w : World) (o : Outcome)
    (d : string -> bool) :
  run_process w cmd = (o, d) ->
  subprocess_run run_process cmd w
  = (match o with
     | Completed out => Ret out
     | NonZeroExit => Raise CalledProcessError
     | NotFound => Raise FileNotFoundError
     end, after w cmd d).
Proof.
  intros H. unfold subprocess_run. rewrite H. now destruct o.
Qed.

Ltac step_run H :=
  unfold try_except, mbind, M_bind;
  rewrite (subprocess_run_eq _ _ _ _ H); cbn [mret M_ret].

(** The installed-target check never raises and never returns a value
    that matters: [build] always goes on to the format gate. *)
Lemma target_check_returns (self : Builder) (w : World) :
  exists w', build_target_check run_process self w = (Ret tt, w').
Proof.
  unfold build_target_check.
  destruct (run_process w ["rustup"; "target"; "list"; "--installed"])
    as [[out| |] d] eqn:E1; step_run E1; try (eexists; reflexivity).
  destruct (negb (Py.mem (target self) (Py.split out)));
    [|eexists; reflexivity].
  destruct (run_process
              (after w ["rustup"; "target"; "list"; "--installed"] d)
              ["rustup"; "target"; "add"; target self])
    as [[out2| |] d2] eqn:E2; step_run E2; eexists; reflexivity.
Qed.

(** [build], from the format gate on. *)
Lemma build_unfold (self : Builder) (w wt : World) :
  missing_deps (disk w) self = [] ->
  build_target_check run_process self w = (Ret tt, wt) ->
  build run_process self w
  = match build_fmt run_process self wt with
    | (Ret (Some v), w') => (Ret v, w')
    | (Ret None, w') => lint_and_compile self w'
    | (Raise e, w') => (Raise e, w')
    end.
Proof.
  intros Hdeps Ht.
  unfold build, _check_dependencies, lint_and_compile,
    mbind, M_bind, get_world.
  rewrite Hdeps. cbn [mret M_ret negb]. rewrite Ht.
  destruct (build_fmt run_process self wt) as [[[v|]|e] w']; reflexivity.
Qed.

(** The format gate when the check fails and the fix succeeds: the
    result is decided by the second check. *)
Lemma fmt_gate_recheck (self : Builder) (w : World) (out : string)
    (o : Outcome) (d1 d2 d3 : string -> bool) :
  run_process w fmt_cmd = (NonZeroExit, d1) ->
  run_process (after w fmt_cmd d1) fmt_fix_cmd = (Completed out, d2) ->
  run_process (after (after w fmt_cmd d1) fmt_fix_cmd d2) fmt_cmd = (o, d3) ->
  build_fmt run_process self w
  = (Ret (match o with NonZeroExit => Some false | _ => None end),
     after (after (after w fmt_cmd d1) fmt_fix_cmd d2) fmt_cmd d3).
Proof.
  intros H1 H2 H3. unfold build_fmt.
  step_run H1. step_run H2. step_run H3. now destruct o.
Qed.

(** C1, as the code has it.  When the format check exits non-zero and
    the automatic reformat exits 0, the check is run once more, inside
    the same [try] as the reformat.  If that second check completes (or
    the tool is not found) the pipeline goes on to the lint gate; if it
    exits non-zero, [build] returns False there and then: the calls made
    are check, fix, check, and the lint gate is not reached. *)
Theorem fmt_recovery (self : Builder) (w wt : World) (out : string)
    (o : Outcome) (d1 d2 d3 : string -> bool) :
  missing_deps (disk w) self = [] ->
  build_target_check run_process self w = (Ret tt, wt) ->
  run_process wt fmt_cmd = (NonZeroExit, d1) ->
  run_process (after wt fmt_cmd d1) fmt_fix_cmd = (Completed out, d2) ->
  run_process (after (after wt fmt_cmd d1) fmt_fix_cmd d2) fmt_cmd = (o, d3) ->
  let w3 := after (after (after wt fmt_cmd d1) fmt_fix_cmd d2) fmt_cmd d3 in
  calls w3 = (calls wt ++ [fmt_cmd; fmt_fix_cmd; fmt_cmd])%list
  /\ (o <> NonZeroExit -> build run_process self w = lint_and_compile self w3)
  /\ (o = NonZeroExit -> build run_process self w = (Ret false, w3)).
Proof.
  intros Hdeps Ht H1 H2 H3 w3.
  rewrite (build_unfold self w wt Hdeps Ht).
  rewrite (fmt_gate_recheck self wt out o d1 d2 d3 H1 H2 H3). fold w3.
  split; [|split].
  - subst w3. unfold after. cbn [calls]. now rewrite <- !app_assoc.
  - intros Ho. destruct o; [reflexivity | contradiction | reflexivity].
  - intros ->. reflexivity.
Qed.

End Pipeline.

(** ** The compiler invocation *)

Section Compiler.

Variable run_process : World -> list string -> Outcome * (string -> bool).

Lemma build_fmt_result (self : Builder) (w w' : World)
    (r : Res (option bool)) :
  build_fmt run_process self w = (r, w') ->
  r = Ret None \/ r = Ret (Some false).
Proof.
  unfold build_fmt, try_except, mbind, M_bind.
  destruct (run_process w fmt_cmd) as [[out| |] d1] eqn:E1;
    rewrite (subprocess_run_eq _ _ _ _ _ E1); cbn [mret M_ret];
    try (intros [= <- <-]; auto; fail).
  destruct (run_process (after w fmt_cmd d1) fmt_fix_cmd)
    as [[out2| |] d2] eqn:E2;
    rewrite (subprocess_run_eq _ _ _ _ _ E2); cbn [mret M_ret];
    try (intros [= <- <-]; auto; fail).
  destruct (run_process (after (after w fmt_cmd d1) fmt_fix_cmd d2) fmt_cmd)
    as [[out3| |] d3] eqn:E3;
    rewrite (subprocess_run_eq _ _ _ _ _ E3); cbn [mret M_ret];
    intros [= <- <-]; auto.
Qed.

Lemma build_clippy_result (self : Builder) (w w' : World)
    (r : Res (option bool)) :
  build_clippy run_process self w = (r, w') ->
  r = Ret None \/ r = Ret (Some false).
Proof.
  unfold build_clippy, try_except, mbind, M_bind.
  destruct (run_process w clippy_cmd) as [[out| |] d1] eqn:E1;
    rewrite (subprocess_run_eq _ _ _ _ _ E1); cbn [mret M_ret];
    intros [= <- <-]; auto.
Qed.

(** The compile stage spawns exactly [build_cmd], and returns True
    exactly when that command exits 0. *)
Lemma build_cargo_spec (self : Builder) (w : World) :
  calls (build_cargo run_process self w).2 = calls w ++ [build_cmd self]
  /\ ((build_cargo run_process self w).1 = Ret true
      <-> exists out, (run_process w (build_cmd self)).1 = Completed out).
Proof.
  unfold build_cargo, try_except, mbind, M_bind.
  destruct (run_process w (build_cmd self)) as [[out| |] d1] eqn:E1;
    rewrite (subprocess_run_eq _ _ _ _ _ E1); cbn [mret M_ret fst snd after calls];
    (split; [reflexivity |]); split;
    try discriminate; try (intros [? ?]; discriminate); eauto.
Qed.

(** When [build] returns True the last command it ran is [build_cmd]. *)
Lemma build_true_last_call (self : Builder) (w w' : World) :
  build run_process self w = (Ret true, w') ->
  exists pre, calls w' = pre ++ [build_cmd self].
Proof.
  unfold build, _check_dependencies, mbind, M_bind, get_world.
  destruct (missing_deps (disk w) self); cbn [mret M_ret negb];
    [|discriminate].
  destruct (target_check_returns run_process self w) as [wt ->].
  destruct (build_fmt run_process self wt) as [rf wf] eqn:Ef.
  destruct (build_fmt_result self wt wf rf Ef) as [-> | ->];
    cbn [mret M_ret]; [|discriminate].
  destruct (build_clippy run_process self wf) as [rc wc] eqn:Ec.
  destruct (build_clippy_result self wf wc rc Ec) as [-> | ->];
    cbn [mret M_ret]; [|discriminate].
  intros H. exists (calls wc).
  pose proof (proj1 (build_cargo_spec self wc)) as Hc.
  rewrite H in Hc. exact Hc.
Qed.

(** C7, as the code has it.  The build command is always
    [cargo build --release]; [--target <triple>] is appended whenever the
    target is a non-empty string.  A native build therefore always
    passes its target explicitly (a host-like triple is never empty);
    the target argument is omitted only for an empty target, which is
    necessarily a cross build.  This is the command the compile stage
    spawns, and the last command of every successful [build]. *)
Theorem build_command (exists_ : string -> bool) (c : Config) :
  let self := resolve exists_ c in
  (exists rest, build_cmd self = ["cargo"; "build"; "--release"] ++ rest)
  /\ (native_build self = true ->
      build_cmd self
      = ["cargo"; "build"; "--release"; "--target"; target self])
  /\ (target self <> "" ->
      build_cmd self
      = ["cargo"; "build"; "--release"; "--target"; target self])
  /\ (target self = "" ->
      native_build self = false
      /\ build_cmd self = ["cargo"; "build"; "--release"])
  /\ (forall w, calls (build_cargo run_process self w).2
                = calls w ++ [build_cmd self])
  /\ (forall w w', build run_process self w = (Ret true, w') ->
                   exists pre, calls w' = pre ++ [build_cmd self]).
Proof.
  intros self.
  assert (Hne : target self <> "" ->
                build_cmd self
                = ["cargo"; "build"; "--release"; "--target"; target self]).
  { intros Ht. unfold build_cmd.
    apply String.eqb_neq in Ht. rewrite Ht. reflexivity. }
  assert (He : target self = "" -> native_build self = false).
  { intros Ht. subst self.
    cbn [native_build resolve target] in *. rewrite Ht. reflexivity. }
  split; [eexists; reflexivity |].
  split.
  { intros Hn. apply Hne. intros Ht. rewrite (He Ht) in Hn. discriminate. }
  split; [exact Hne |].
  split.
  { intros Ht. split; [exact (He Ht) |].
    unfold build_cmd. rewrite Ht. reflexivity. }
  split.
  - intros w. apply build_cargo_spec.
  - intros w w'. apply build_true_last_call.
Qed.

End Compiler.

(** ** Staging the artifact *)

Section Stager.

Variable os_error : World -> OsOp -> bool.

(** The target triple contains the text "windows". *)
Definition windows_triple (t : string) : Prop :=
  exists pre post, t = pre +:+ "windows" +:+ post.

Lemma binary_suffix_spec (self : Builder) :
  (windows_triple (target self) -> _binary_suffix self = ".exe")
  /\ (~ windows_triple (target self) -> _binary_suffix self = "").
Proof.
  unfold _binary_suffix, _is_windows_target, windows_triple.
  rewrite <- contains_spec.
  destruct (Py.contains "windows" (target self)); split; intros H;
    try reflexivity; congruence.
Qed.

Lemma os_op_ok (op : OsOp) (w : World) (u : unit) (w' : World) :
  os_op os_error op w = (Ret u, w') ->
  environ w' = environ w /\ calls w' = calls w
  /\ disk w' = match op with
               | Makedirs p => disk_add p (disk w)
               | Copy2 _ dst => disk_add dst (disk w)
               | Getsize _ => disk w
               | Rmtree p => disk_rmtree p (disk w)
               end.
Proof.
  unfold os_op. destruct (os_error w op); [discriminate |].
  intros H. inversion H; subst. cbn. auto.
Qed.

Lemma disk_add_true (p q : string) (d : string -> bool) :
  disk_add p d q = true <-> q = p \/ d q = true.
Proof. unfold disk_add. now rewrite orb_true_iff, String.eqb_eq. Qed.

(** A successful [copy_binary] found the source, and leaves a disk that
    differs from the one before in the output directory and the
    destination only. *)
Lemma copy_binary_true (self : Builder) (w w' : World) :
  copy_binary os_error self w = (Ret true, w') ->
  disk w (source_path self) = true
  /\ forall q, disk w' q = true
               <-> q = dest_path self \/ q = output_dir self \/ disk w q = true.
Proof.
  unfold copy_binary, path_exists, mbind, M_bind.
  destruct (disk w (source_path self)) eqn:Hsrc; cbn [negb mret M_ret];
    [|discriminate].
  destruct (os_op os_error (Makedirs (output_dir self)) w)
    as [[[]|e] w1] eqn:E1; [|discriminate].
  destruct (os_op os_error (Copy2 (source_path self) (dest_path self)) w1)
    as [[[]|e] w2] eqn:E2; [|discriminate].
  destruct (os_op os_error (Getsize (dest_path self)) w2)
    as [[[]|e] w3] eqn:E3; [|discriminate].
  intros [= <-]. split; [reflexivity |]. intros q.
  apply os_op_ok in E1 as (_ & _ & D1).
  apply os_op_ok in E2 as (_ & _ & D2).
  apply os_op_ok in E3 as (_ & _ & D3).
  rewrite D3, D2, D1, !disk_add_true. reflexivity.
Qed.

(** When the source exists and no file operation fails, staging
    succeeds. *)
Lemma copy_binary_succeeds (self : Builder) (w : World) :
  disk w (source_path self) = true ->
  (forall w0 op, os_error w0 op = false) ->
  exists w', copy_binary os_error self w = (Ret true, w').
Proof.
  intros Hsrc Hok.
  unfold copy_binary, path_exists, mbind, M_bind, os_op.
  rewrite Hsrc. cbn [negb mret M_ret]. rewrite !Hok.
  eexists. reflexivity.
Qed.

(** C9.  The suffix depends on the target triple alone: [.exe] when the
    triple contains "windows", empty otherwise.  A staging that succeeds
    found the artifact and has written <output_dir>/<binary_name><suffix>;
    and staging succeeds whenever the artifact exists and no file
    operation fails. *)
Theorem binary_suffix_and_staging (self : Builder) :
  (windows_triple (target self) -> _binary_suffix self = ".exe")
  /\ (~ windows_triple (target self) -> _binary_suffix self = "")
  /\ (forall other : Builder,
        target other = target self -> _binary_suffix other = _binary_suffix self)
  /\ (forall w w',
        copy_binary os_error self w = (Ret true, w') ->
        disk w ("target/" +:+ target self +:+ "/release/" +:+ binary_name self
                +:+ _binary_suffix self) = true
        /\ disk w' (output_dir self +:+ "/" +:+ binary_name self
                    +:+ _binary_suffix self) = true)
  /\ (forall w,
        disk w ("target/" +:+ target self +:+ "/release/" +:+ binary_name self
                +:+ _binary_suffix self) = true ->
        (forall w0 op, os_error w0 op = false) ->
        exists w', copy_binary os_error self w = (Ret true, w')).
Proof.
  destruct (binary_suffix_spec self) as [Hw Hn].
  split; [exact Hw |]. split; [exact Hn |]. split.
  { intros other Ht. unfold _binary_suffix, _is_windows_target.
    now rewrite Ht. }
  split.
  - intros w w' Hcopy.
    destruct (copy_binary_true self w w' Hcopy) as [Hsrc Hd].
    split; [exact Hsrc |].
    apply Hd. left. reflexivity.
  - intros w Hsrc Hok. exact (copy_binary_succeeds self w Hsrc Hok).
Qed.

End Stager.

(** ** The entry point *)

Section EntryPoint.

Variable run_process : World -> list string -> Outcome * (string -> bool).
Variable os_error : World -> OsOp -> bool.
Variable read_toml : string -> TomlFile.

Definition clean_cmd : list string := ["cargo"; "clean"].

(** [clean], case by case on how [cargo clean] ends. *)
Lemma clean_unfold (self : Builder) (w : World) (o : Outcome)
    (d : string -> bool) :
  run_process w clean_cmd = (o, d) ->
  clean run_process os_error self w
  = match o with
    | NotFound => (Raise FileNotFoundError, after w clean_cmd d)
    | _ =>
        if d (output_dir self)
        then os_op os_error (Rmtree (output_dir self)) (after w clean_cmd d)
        else (Ret tt, after w clean_cmd d)
    end.
Proof.
  intros H. unfold clean, try_except, mbind, M_bind, path_exists.
  fold clean_cmd. rewrite (subprocess_run_eq _ _ _ _ _ H).
  destruct o; cbn [mret M_ret after disk]; try reflexivity;
    now destruct (d (output_dir self)).
Qed.

Lemma os_op_calls (op : OsOp) (w : World) :
  calls (os_op os_error op w).2 = calls w.
Proof. unfold os_op. now destruct (os_error w op). Qed.

Lemma clean_calls (self : Builder) (w : World) :
  calls (clean run_process os_error self w).2 = calls w ++ [clean_cmd].
Proof.
  destruct (run_process w clean_cmd) as [o d] eqn:E.
  rewrite (clean_unfold self w o d E).
  destruct o; try reflexivity;
    (destruct (d (output_dir self)); [rewrite os_op_calls |]; reflexivity).
Qed.

Lemma init_raise_world (path : string) (w w1 : World) (e : exn) :
  __init__ read_toml path w = (Raise e, w1) -> w1 = w.
Proof.
  rewrite init_unfold. destruct (read_toml path) as [| |e0|c]; cbv zeta.
  - now intros [= _ <-].
  - now intros [= _ <-].
  - now intros [= _ <-].
  - destruct (int_error (get_paths c)) as [e1|]; [now intros [= _ <-] |].
    destruct (native_build (resolve (disk w) c)); [discriminate |].
    destruct (negb (Py.truthy (android_ndk_home (resolve (disk w) c))));
      [now intros [= _ <-] |].
    destruct (negb (Py.truthy (llvm_path (resolve (disk w) c))));
      [now intros [= _ <-] | discriminate].
Qed.

(** C10.  When the configuration file does not exist or does not parse,
    [main] ends in the constructor with the loader's exception uncaught,
    whatever the flags: the exit code is 1 and the world is the one
    [main] started in (no variable set, no subprocess run). *)
Theorem unreadable_config (args : Args) (w : World) :
  read_toml (arg_config args) = NoSuchFile
  \/ read_toml (arg_config args) = Malformed ->
  exists e,
    main run_process os_error read_toml args w = (Uncaught e, w)
    /\ (read_toml (arg_config args) = NoSuchFile -> e = FileNotFoundError)
    /\ (read_toml (arg_config args) = Malformed -> e = TOMLDecodeError)
    /\ exit_code (Uncaught e) = 1%Z.
Proof.
  intros H. unfold main. rewrite init_unfold.
  destruct H as [-> | ->]; eexists; (split; [reflexivity |]);
    repeat split; intros; try reflexivity; discriminate.
Qed.

(** C5, as the code has it.  With [--clean] the builder is constructed
    first; an exception raised there ends the process with exit code 1
    and nothing done.  Once constructed, the only subprocess is
    [cargo clean]: no stage of the build pipeline runs.  If that
    subprocess ran (with whatever exit status) and removing the output
    directory, when it exists, does not fail, the process exits with
    code 0. *)
Theorem clean_path (args : Args) (w : World) :
  arg_clean args = true ->
  (forall e w1,
     __init__ read_toml (arg_config args) w = (Raise e, w1) ->
     main run_process os_error read_toml args w = (Uncaught e, w)
     /\ exit_code (main run_process os_error read_toml args w).1 = 1%Z)
  /\ (forall self w1,
        __init__ read_toml (arg_config args) w = (Ret self, w1) ->
        calls (main run_process os_error read_toml args w).2
        = calls w ++ [clean_cmd]
        /\ forall o d,
             run_process w1 clean_cmd = (o, d) ->
             o <> NotFound ->
             d (output_dir self) = false
             \/ os_error (after w1 clean_cmd d) (Rmtree (output_dir self)) = false ->
             (main run_process os_error read_toml args w).1 = Returned
             /\ exit_code (main run_process os_error read_toml args w).1 = 0%Z).
Proof.
  intros Hclean. split.
  - intros e w1 Hinit. pose proof (init_raise_world _ _ _ _ Hinit) as ->.
    unfold main. rewrite Hinit. split; reflexivity.
  - intros self w1 Hinit.
    destruct (init_resolve read_toml _ _ _ _ Hinit) as (c & _ & _ & _ & Hcalls).
    unfold main. rewrite Hinit, Hclean. split.
    + pose proof (clean_calls self w1) as Hc.
      destruct (clean run_process os_error self w1) as [[[]|e] w2];
        cbn [snd] in *; now rewrite Hc, Hcalls.
    + intros o d Hrun Ho Hrm.
      rewrite (clean_unfold self w1 o d Hrun).
      assert (Hgoal :
        (if d (output_dir self)
         then os_op os_error (Rmtree (output_dir self)) (after w1 clean_cmd d)
         else (Ret tt, after w1 clean_cmd d)).1 = Ret tt).
      { destruct (d (output_dir self)); [|reflexivity].
        destruct Hrm as [Hrm | Hrm]; [discriminate |].
        unfold os_op. now rewrite Hrm. }
      destruct o; try contradiction;
        (destruct (if d (output_dir self) then _ else _) as [[[]|e] w2];
         cbn [fst] in Hgoal; [split; reflexivity | discriminate]).
Qed.

End EntryPoint.

(** ** Scenarios *)

Section Scenarios.

Import Examples.

Definition rustup_list : list string := ["rustup"; "target"; "list"; "--installed"].

(** The world in which the format gate starts, for the default
    configuration. *)
Definition w_listed : World := after world0 rustup_list empty_disk.

Definition w_rechecked : World :=
  after (after (after w_listed fmt_cmd empty_disk) fmt_fix_cmd empty_disk)
        fmt_cmd empty_disk.

Definition args_build : Args := mkArgs false "build_config.toml".
Definition args_clean : Args := mkArgs true "build_config.toml".
Definition args_clean_missing : Args := mkArgs true "missing.toml".

(** A recheck that still fails makes [build] return False. *)
Lemma fmt_recovery_witness :
  build never_formatted b_default world0 = (Ret false, w_rechecked).
Proof.
  refine (proj2 (proj2 (fmt_recovery never_formatted b_default world0 w_listed
                          "x86_64-pc-windows-msvc" NonZeroExit
                          empty_disk empty_disk empty_disk
                          eq_refl eq_refl eq_refl eq_refl eq_refl)) eq_refl).
Defined.

(** C1 fails as stated: the check exits non-zero, the reformat exits 0,
    the recheck exits non-zero, and [build] returns False after exactly
    these calls; clippy is never run. *)
Lemma fmt_recovery_counterexample :
  (never_formatted w_listed fmt_cmd).1 = NonZeroExit
  /\ (never_formatted (after w_listed fmt_cmd empty_disk) fmt_fix_cmd).1
     = Completed "x86_64-pc-windows-msvc"
  /\ (build never_formatted b_default world0).1 = Ret false
  /\ calls (build never_formatted b_default world0).2
     = [rustup_list; fmt_cmd; fmt_fix_cmd; fmt_cmd]
  /\ bool_decide (clippy_cmd ∈ calls (build never_formatted b_default world0).2)
     = false.
Proof. vm_compute. repeat split. Qed.

(** When the recheck passes the whole pipeline runs. *)
Example fmt_fixed_then_built :
  (build formatted_by_fix b_default world0).1 = Ret true
  /\ calls (build formatted_by_fix b_default world0).2
     = [rustup_list; fmt_cmd; fmt_fix_cmd; fmt_cmd; clippy_cmd;
        ["cargo"; "build"; "--release"; "--target"; "x86_64-pc-windows-msvc"]].
Proof. vm_compute. repeat split. Qed.

(** The default, native configuration passes its target. *)
Lemma build_command_witness :
  build_cmd b_default
  = ["cargo"; "build"; "--release"; "--target"; "x86_64-pc-windows-msvc"].
Proof.
  exact (proj1 (proj2 (build_command all_succeed empty_disk cfg_default))
           eq_refl).
Defined.

(** C7 fails as stated: the native default build passes [--target], and
    a cross build with an empty target omits it. *)
Lemma build_command_counterexample :
  native_build b_default = true
  /\ calls (build all_succeed b_default world0).2
     = [rustup_list; fmt_cmd; clippy_cmd;
        ["cargo"; "build"; "--release"; "--target"; "x86_64-pc-windows-msvc"]]
  /\ native_build (resolve ndk_disk cfg_empty_target) = false
  /\ build_cmd (resolve ndk_disk cfg_empty_target)
     = ["cargo"; "build"; "--release"].
Proof. vm_compute. repeat split. Qed.

(** The default target is a Windows triple. *)
Lemma binary_suffix_and_staging_witness : _binary_suffix b_default = ".exe".
Proof.
  apply (proj1 (binary_suffix_and_staging os_fine b_default)).
  exists "x86_64-pc-", "-msvc". reflexivity.
Defined.

(** [--clean --config missing.toml]: the loader's exception ends the
    process. *)
Lemma unreadable_config_witness :
  main all_succeed os_fine (toml_of cfg_default) args_clean_missing world0
  = (Uncaught FileNotFoundError, world0).
Proof.
  destruct (unreadable_config all_succeed os_fine (toml_of cfg_default)
              args_clean_missing world0 (or_introl eq_refl))
    as (e & Hmain & Hnf & _).
  rewrite Hmain, (Hnf eq_refl). reflexivity.
Defined.

(** [--clean] with the default configuration and a working cargo. *)
Lemma clean_path_witness :
  (main all_succeed os_fine (toml_of cfg_default) args_clean world0).1
  = Returned
  /\ exit_code
       (main all_succeed os_fine (toml_of cfg_default) args_clean world0).1
     = 0%Z.
Proof.
  refine (proj2 (proj2 (clean_path all_succeed os_fine (toml_of cfg_default)
                          args_clean world0 eq_refl)
                   b_default world0 _)
            (Completed "x86_64-pc-windows-msvc") empty_disk eq_refl _
            (or_introl eq_refl)).
  - rewrite init_unfold. reflexivity.
  - discriminate.
Defined.

(** C5 fails as stated: [--clean] exits with code 1, having run nothing,
    when the Android configuration lacks its NDK path, and likewise when
    the configuration file is missing. *)
Lemma clean_path_counterexample :
  main all_succeed os_fine (toml_of cfg_android_no_paths) args_clean world0
  = (Uncaught (ValueError "配置文件中缺少 android_ndk_home 路径配置"), world0)
  /\ exit_code
       (main all_succeed os_fine (toml_of cfg_android_no_paths)
             args_clean world0).1 = 1%Z
  /\ exit_code
       (main all_succeed os_fine (toml_of cfg_default)
             args_clean_missing world0).1 = 1%Z.
Proof.
  unfold main. rewrite !init_unfold. repeat split.
Qed.

(** Scenario A of the specification: the default Windows target, no
    toolchain paths, output directory [out]. *)
Example scenario_a :
  let cfg := mkConfig (Some (mkPaths None None None
                               (Some "x86_64-pc-windows-msvc")
                               (Some "fpid") (Some "out"))) in
  let r := main cargo_builds os_fine (toml_of cfg) args_build world0 in
  r.1 = Returned
  /\ calls r.2
     = [rustup_list; fmt_cmd; clippy_cmd;
        ["cargo"; "build"; "--release"; "--target"; "x86_64-pc-windows-msvc"]]
  /\ disk r.2 "out/fpid.exe" = true
  /\ environ r.2 = environ world0.
Proof. vm_compute. repeat split. Qed.

(** Scenario C of the specification: check and fix both fail. *)
Example scenario_c :
  let run : World -> list string -> Outcome * (string -> bool) :=
    fun w cmd =>
      match cmd with
      | "cargo" :: "fmt" :: _ => (NonZeroExit, disk w)
      | _ => (Completed "x86_64-pc-windows-msvc", disk w)
      end in
  let r := main run os_fine (toml_of cfg_default) args_build world0 in
  r.1 = SysExit 1
  /\ calls r.2 = [rustup_list; fmt_cmd; fmt_fix_cmd].
Proof. vm_compute. repeat split. Qed.

(** Without cargo, [--clean] ends with the uncaught
    [FileNotFoundError] of [cargo clean]. *)
Example clean_without_cargo :
  (main no_cargo os_fine (toml_of cfg_default) args_clean world0).1
  = Uncaught FileNotFoundError.
Proof. vm_compute. reflexivity. Qed.

End Scenarios.

(** ** Further properties: dependency validation *)

Section DependencyCheck.

(** In native mode the dependency check passes whatever the disk holds.
    In cross mode it passes exactly when both toolchain directories
    exist; it does not stop at the first missing one: when neither
    exists both are listed, NDK first. *)
Theorem check_dependencies_spec (self : Builder) (w : World) :
  (native_build self = true -> _check_dependencies self w = (Ret true, w))
  /\ (forall ndk llvm,
        native_build self = false ->
        android_ndk_home self = Some ndk -> llvm_path self = Some llvm ->
        _check_dependencies self w = (Ret (disk w ndk && disk w llvm), w)
        /\ (disk w ndk = false -> disk w llvm = false ->
            missing_deps (disk w) self
            = ["Android NDK: " +:+ ndk; "LLVM: " +:+ llvm])).
Proof.
  split.
  - intros Hn. unfold _check_dependencies, mbind, M_bind, get_world,
      missing_deps. rewrite Hn. reflexivity.
  - intros ndk llvm Hn Hndk Hllvm.
    pose proof (missing_deps_cross (disk w) self ndk llvm Hn Hndk Hllvm) as Hm.
    split.
    + unfold _check_dependencies, mbind, M_bind, get_world. rewrite Hm.
      destruct (disk w ndk), (disk w llvm); reflexivity.
    + intros Ha Hb. rewrite Hm, Ha, Hb. reflexivity.
Qed.

End DependencyCheck.

Section DependencyCheckScenarios.

Import Examples.

(** The default configuration is native: the check passes on an empty
    disk. *)
Lemma check_dependencies_spec_witness :
  _check_dependencies b_default world0 = (Ret true, world0).
Proof.
  exact (proj1 (check_dependencies_spec b_default world0) eq_refl).
Defined.

End DependencyCheckScenarios.

(** ** Further properties: the gates of [build] *)

Section Gates.

Variable run_process : World -> list string -> Outcome * (string -> bool).

Definition rustup_add (self : Builder) : list string :=
  ["rustup"; "target"; "add"; target self].

Lemma mem_In (x : string) (l : list string) : Py.mem x l = true <-> In x l.
Proof.
  unfold Py.mem. rewrite existsb_exists. split.
  - intros (y & Hy & He). apply String.eqb_eq in He. now subst.
  - intros H. exists x. split; [assumption | apply String.eqb_refl].
Qed.

(** The installed-target check, by what it spawned. *)
Lemma target_check_shape (self : Builder) (w : World) :
  exists w',
    build_target_check run_process self w = (Ret tt, w')
    /\ environ w' = environ w
    /\ ((calls w' = calls w ++ [rustup_list]
         /\ forall out d, run_process w rustup_list = (Completed out, d) ->
                          Py.mem (target self) (Py.split out) = true)
        \/ (calls w' = calls w ++ [rustup_list; rustup_add self]
            /\ exists out d,
                 run_process w rustup_list = (Completed out, d)
                 /\ Py.mem (target self) (Py.split out) = false)).
Proof.
  unfold build_target_check, try_except, mbind, M_bind. fold rustup_list.
  destruct (run_process w rustup_list) as [[out| |] d] eqn:E1;
    rewrite (subprocess_run_eq _ _ _ _ _ E1); cbn [mret M_ret];
    try (eexists; split; [reflexivity |]; split; [reflexivity |];
         left; split; [reflexivity | intros; discriminate]).
  destruct (Py.mem (target self) (Py.split out)) eqn:Hmem; cbn [negb].
  - eexists. split; [reflexivity |]. split; [reflexivity |].
    left. split; [reflexivity |]. now intros out' d' [= <- _].
  - fold (rustup_add self).
    destruct (run_process (after w rustup_list d) (rustup_add self))
      as [[out2| |] d2] eqn:E2;
      rewrite (subprocess_run_eq _ _ _ _ _ E2); cbn [mret M_ret];
      (eexists; split; [reflexivity |]; split; [reflexivity |];
       right; split;
       [cbn [after calls]; now rewrite <- app_assoc | eauto]).
Qed.

(** The installed-target check, by how the rustup query ends.  When it
    exits non-zero or rustup is not found, the check returns after that
    one call.  When it exits 0, [rustup target add <target>] is run
    exactly when the target is not one of the whitespace-separated words
    of the output, and the check returns however that installation ends.
    In each case the environment is as before. *)
Theorem target_check_advisory (self : Builder) (w : World) (o : Outcome)
    (d : string -> bool) :
  run_process w rustup_list = (o, d) ->
  (o = NonZeroExit \/ o = NotFound ->
   build_target_check run_process self w = (Ret tt, after w rustup_list d))
  /\ (forall out,
        o = Completed out -> In (target self) (Py.split out) ->
        build_target_check run_process self w
        = (Ret tt, after w rustup_list d))
  /\ (forall out o2 d2,
        o = Completed out -> ~ In (target self) (Py.split out) ->
        run_process (after w rustup_list d) (rustup_add self) = (o2, d2) ->
        build_target_check run_process self w
        = (Ret tt, after (after w rustup_list d) (rustup_add self) d2)).
Proof.
  intros Hq. unfold build_target_check, try_except, mbind, M_bind.
  fold rustup_list. rewrite (subprocess_run_eq _ _ _ _ _ Hq).
  split; [|split].
  - intros [-> | ->]; reflexivity.
  - intros out -> Hin. apply mem_In in Hin.
    cbn [mret M_ret]. rewrite Hin. reflexivity.
  - intros out o2 d2 -> Hin Hadd.
    assert (Hmem : Py.mem (target self) (Py.split out) = false).
    { destruct (Py.mem (target self) (Py.split out)) eqn:E; [|reflexivity].
      apply mem_In in E. contradiction. }
    cbn [mret M_ret]. rewrite Hmem. cbn [negb]. fold (rustup_add self).
    rewrite (subprocess_run_eq _ _ _ _ _ Hadd). now destruct o2.
Qed.

(** A format check that exits 0, or whose tool is not installed, lets
    the pipeline through after that single call: [cargo fmt] is not
    run, and [build] continues with the lint gate. *)
Theorem fmt_gate_clean (self : Builder) (w wt : World) (o : Outcome)
    (d : string -> bool) :
  missing_deps (disk w) self = [] ->
  build_target_check run_process self w = (Ret tt, wt) ->
  run_process wt fmt_cmd = (o, d) ->
  o <> NonZeroExit ->
  build_fmt run_process self wt = (Ret None, after wt fmt_cmd d)
  /\ build run_process self w
     = lint_and_compile run_process self (after wt fmt_cmd d).
Proof.
  intros Hdeps Ht Hrun Ho.
  assert (Hfmt : build_fmt run_process self wt = (Ret None, after wt fmt_cmd d)).
  { unfold build_fmt, try_except, mbind, M_bind.
    rewrite (subprocess_run_eq _ _ _ _ _ Hrun).
    destruct o; [reflexivity | contradiction | reflexivity]. }
  split; [exact Hfmt |].
  rewrite (build_unfold run_process self w wt Hdeps Ht), Hfmt. reflexivity.
Qed.

(** When the format check exits non-zero, the outcome of [cargo fmt]
    decides: if it exits non-zero too, [build] returns False after
    exactly these two calls, and neither the second check nor any later
    stage runs; if cargo fmt cannot be found, the gate is skipped and
    [build] continues with the lint gate. *)
Theorem fmt_fix_failure (self : Builder) (w wt : World) (o : Outcome)
    (d1 d2 : string -> bool) :
  missing_deps (disk w) self = [] ->
  build_target_check run_process self w = (Ret tt, wt) ->
  run_process wt fmt_cmd = (NonZeroExit, d1) ->
  run_process (after wt fmt_cmd d1) fmt_fix_cmd = (o, d2) ->
  let w2 := after (after wt fmt_cmd d1) fmt_fix_cmd d2 in
  calls w2 = calls wt ++ [fmt_cmd; fmt_fix_cmd]
  /\ (o = NonZeroExit -> build run_process self w = (Ret false, w2))
  /\ (o = NotFound ->
      build run_process self w = lint_and_compile run_process self w2).
Proof.
  intros Hdeps Ht H1 H2 w2.
  split; [subst w2; cbn [after calls]; now rewrite <- app_assoc |].
  rewrite (build_unfold run_process self w wt Hdeps Ht).
  unfold build_fmt, try_except, mbind, M_bind.
  rewrite (subprocess_run_eq _ _ _ _ _ H1). cbn [mret M_ret].
  rewrite (subprocess_run_eq _ _ _ _ _ H2). fold w2.
  split; intros ->; reflexivity.
Qed.

(** The lint gate: clippy exiting non-zero makes [lint_and_compile], and
    so [build], return False without running cargo build; clippy exiting
    0 or missing hands over to the compile stage. *)
Theorem lint_gate (self : Builder) (w : World) (o : Outcome)
    (d : string -> bool) :
  run_process w clippy_cmd = (o, d) ->
  (o = NonZeroExit ->
   build_clippy run_process self w = (Ret (Some false), after w clippy_cmd d)
   /\ lint_and_compile run_process self w = (Ret false, after w clippy_cmd d))
  /\ (o <> NonZeroExit ->
      build_clippy run_process self w = (Ret None, after w clippy_cmd d)
      /\ lint_and_compile run_process self w
         = build_cargo run_process self (after w clippy_cmd d)).
Proof.
  intros Hrun.
  unfold lint_and_compile, build_clippy, try_except, mbind, M_bind.
  rewrite (subprocess_run_eq _ _ _ _ _ Hrun).
  destruct o; split; intros H; try discriminate; try contradiction;
    split; reflexivity.
Qed.

(** The compile stage: [build_cargo] returns True when the build command
    exits 0 and False when it exits non-zero; when cargo cannot be found
    the [FileNotFoundError] is not caught and leaves [build_cargo]. *)
Theorem compile_stage (self : Builder) (w : World) (o : Outcome)
    (d : string -> bool) :
  run_process w (build_cmd self) = (o, d) ->
  build_cargo run_process self w
  = (match o with
     | Completed _ => Ret true
     | NonZeroExit => Ret false
     | NotFound => Raise FileNotFoundError
     end, after w (build_cmd self) d).
Proof.
  intros Hrun. unfold build_cargo, try_except, mbind, M_bind.
  rewrite (subprocess_run_eq _ _ _ _ _ Hrun). now destruct o.
Qed.

End Gates.

(** ** Further properties: what the pipeline leaves untouched *)

Section Frames.

Variable run_process : World -> list string -> Outcome * (string -> bool).
Variable os_error : World -> OsOp -> bool.
Variable read_toml : string -> TomlFile.

(** A computation that never writes [os.environ]. *)
Definition keeps_environ {A} (m : M A) : Prop :=
  forall w, environ (m w).2 = environ w.

Lemma keeps_ret {A} (a : A) : keeps_environ (mret a).
Proof. intros w. reflexivity. Qed.

Lemma keeps_raise {A} (e : exn) : keeps_environ (@raise A e).
Proof. intros w. reflexivity. Qed.

Lemma keeps_get_world : keeps_environ get_world.
Proof. intros w. reflexivity. Qed.

Lemma keeps_bind {A B} (m : M A) (f : A -> M B) :
  keeps_environ m -> (forall a, keeps_environ (f a)) ->
  keeps_environ (mbind f m).
Proof.
  intros Hm Hf w. unfold mbind, M_bind. specialize (Hm w).
  destruct (m w) as [[a|e] w1]; cbn [snd] in *; [|assumption].
  now rewrite Hf.
Qed.

Lemma keeps_try {A} (body : M A) (handler : exn -> option (M A)) :
  keeps_environ body ->
  (forall e h, handler e = Some h -> keeps_environ h) ->
  keeps_environ (try_except body handler).
Proof.
  intros Hb Hh w. unfold try_except. specialize (Hb w).
  destruct (body w) as [[a|e] w1]; cbn [snd] in *; [assumption |].
  destruct (handler e) as [h|] eqn:E; cbn [snd]; [|assumption].
  now rewrite (Hh e h E).
Qed.

Lemma keeps_subprocess (cmd : list string) :
  keeps_environ (subprocess_run run_process cmd).
Proof.
  intros w. unfold subprocess_run.
  destruct (run_process w cmd) as [[out| |] d]; reflexivity.
Qed.

Lemma keeps_os_op (op : OsOp) : keeps_environ (os_op os_error op).
Proof. intros w. unfold os_op. now destruct (os_error w op). Qed.

Lemma keeps_path_exists (p : string) : keeps_environ (path_exists p).
Proof. intros w. reflexivity. Qed.

Create HintDb keeps.
Hint Resolve keeps_ret keeps_raise keeps_get_world keeps_subprocess
  keeps_os_op keeps_path_exists : keeps.

Ltac keeps_step :=
  first
    [ apply keeps_bind; [|intros ?]
    | apply keeps_try; [|intros ? ? ?]
    | solve [auto with keeps]
    | match goal with
      | |- keeps_environ (if ?c then _ else _) => destruct c
      | |- keeps_environ (match ?r with Some _ => _ | None => _ end) => destruct r
      | H : match ?e with ValueError _ => _ | _ => _ end = Some _ |- _ =>
          destruct e; try discriminate; injection H as <-
      | H : Some _ = Some _ |- _ => injection H as <-
      end ].

Lemma keeps_build (self : Builder) : keeps_environ (build run_process self).
Proof.
  unfold build, _check_dependencies, build_target_check, build_fmt,
    build_clippy, build_cargo.
  repeat keeps_step.
Qed.

Lemma keeps_copy_binary (self : Builder) :
  keeps_environ (copy_binary os_error self).
Proof. unfold copy_binary. repeat keeps_step. Qed.

Lemma keeps_clean (self : Builder) :
  keeps_environ (clean run_process os_error self).
Proof. unfold clean. repeat keeps_step. Qed.

Lemma keeps_build_only_flow (self : Builder) :
  keeps_environ (build_only_flow run_process os_error self).
Proof.
  unfold build_only_flow.
  apply keeps_bind; [apply keeps_build | intros ok].
  destruct (negb ok); [auto with keeps |].
  apply keeps_bind; [apply keeps_copy_binary | intros ok2].
  destruct (negb ok2); auto with keeps.
Qed.

(** The environment is written by the constructor and by nothing after
    it: [build], [copy_binary], [build_only_flow] and [clean] leave every
    variable as they found it, however their subprocesses and file
    operations end, and so the environment at the end of [main] is the
    one the constructor left. *)
Theorem environment_written_once (self : Builder) (w : World) :
  environ (build run_process self w).2 = environ w
  /\ environ (copy_binary os_error self w).2 = environ w
  /\ environ (build_only_flow run_process os_error self w).2 = environ w
  /\ environ (clean run_process os_error self w).2 = environ w
  /\ forall args w0,
       __init__ read_toml (arg_config args) w0 = (Ret self, w) ->
       environ (main run_process os_error read_toml args w0).2 = environ w.
Proof.
  split; [apply keeps_build |].
  split; [apply keeps_copy_binary |].
  split; [apply keeps_build_only_flow |].
  split; [apply keeps_clean |].
  intros args w0 Hinit. unfold main. rewrite Hinit.
  destruct (arg_clean args).
  - pose proof (keeps_clean self w) as Hk.
    destruct (clean run_process os_error self w) as [[[]|e] w2]; exact Hk.
  - pose proof (keeps_build_only_flow self w) as Hk.
    destruct (build_only_flow run_process os_error self w) as [[ok|e] w2];
      [destruct (negb ok) |]; exact Hk.
Qed.

End Frames.

(** ** Further properties: the order of the stages *)

Section StageOrder.

Variable run_process : World -> list string -> Outcome * (string -> bool).
Variable os_error : World -> OsOp -> bool.

(** The format gate spawns the check first, then at most the fix and
    the second check. *)
Lemma build_fmt_calls (self : Builder) (w w' : World)
    (r : Res (option bool)) :
  build_fmt run_process self w = (r, w') ->
  calls w' = calls w ++ [fmt_cmd]
  \/ calls w' = calls w ++ [fmt_cmd; fmt_fix_cmd]
  \/ calls w' = calls w ++ [fmt_cmd; fmt_fix_cmd; fmt_cmd].
Proof.
  unfold build_fmt, try_except, mbind, M_bind.
  destruct (run_process w fmt_cmd) as [[out| |] d1] eqn:E1;
    rewrite (subprocess_run_eq _ _ _ _ _ E1); cbn [mret M_ret];
    try (intros [= _ <-]; left; reflexivity).
  destruct (run_process (after w fmt_cmd d1) fmt_fix_cmd)
    as [[out2| |] d2] eqn:E2;
    rewrite (subprocess_run_eq _ _ _ _ _ E2); cbn [mret M_ret];
    try (intros [= _ <-]; right; left; cbn [after calls];
         now rewrite <- app_assoc).
  destruct (run_process (after (after w fmt_cmd d1) fmt_fix_cmd d2) fmt_cmd)
    as [[out3| |] d3] eqn:E3;
    rewrite (subprocess_run_eq _ _ _ _ _ E3); cbn [mret M_ret];
    intros [= _ <-]; right; right; cbn [after calls];
    now rewrite <- !app_assoc.
Qed.

Lemma build_clippy_calls (self : Builder) (w w' : World)
    (r : Res (option bool)) :
  build_clippy run_process self w = (r, w') ->
  calls w' = calls w ++ [clippy_cmd].
Proof.
  unfold build_clippy, try_except, mbind, M_bind.
  destruct (run_process w clippy_cmd) as [[out| |] d1] eqn:E1;
    rewrite (subprocess_run_eq _ _ _ _ _ E1); cbn [mret M_ret];
    now intros [= _ <-].
Qed.

(** A [build] that returns True went through every stage in order: the
    rustup query (and possibly the installation of the target), the
    format check (possibly followed by the fix, and then possibly by the
    second check), clippy, and last the build command.  Nothing else was
    spawned. *)
Theorem build_true_stages (self : Builder) (w w' : World) :
  build run_process self w = (Ret true, w') ->
  missing_deps (disk w) self = []
  /\ exists install fmt,
       calls w'
       = calls w ++ [rustup_list] ++ install ++ fmt
                 ++ [clippy_cmd; build_cmd self]
       /\ (install = [] \/ install = [rustup_add self])
       /\ (fmt = [fmt_cmd] \/ fmt = [fmt_cmd; fmt_fix_cmd]
           \/ fmt = [fmt_cmd; fmt_fix_cmd; fmt_cmd]).
Proof.
  unfold build, _check_dependencies, mbind, M_bind, get_world.
  destruct (missing_deps (disk w) self) eqn:Hdeps; cbn [mret M_ret negb];
    [|discriminate].
  destruct (target_check_shape run_process self w)
    as (wt & -> & _ & Ht).
  destruct (build_fmt run_process self wt) as [rf wf] eqn:Ef.
  pose proof (build_fmt_calls self wt wf rf Ef) as Hf.
  destruct (build_fmt_result run_process self wt wf rf Ef) as [-> | ->];
    cbn [mret M_ret]; [|discriminate].
  destruct (build_clippy run_process self wf) as [rc wc] eqn:Ec.
  pose proof (build_clippy_calls self wf wc rc Ec) as Hc.
  destruct (build_clippy_result run_process self wf wc rc Ec) as [-> | ->];
    cbn [mret M_ret]; [|discriminate].
  intros Hb. split; [reflexivity |].
  pose proof (proj1 (build_cargo_spec run_process self wc)) as Hcargo.
  rewrite Hb in Hcargo. cbn [snd] in Hcargo.
  assert (Hinst : exists install,
             calls wt = calls w ++ [rustup_list] ++ install
             /\ (install = [] \/ install = [rustup_add self])).
  { destruct Ht as [[Ht _] | [Ht _]]; rewrite Ht.
    - exists []. split; [reflexivity | now left].
    - exists [rustup_add self]. split; [reflexivity | now right]. }
  destruct Hinst as (install & Hwt & Hinst).
  assert (Hfmt : exists fmt,
             calls wf = calls wt ++ fmt
             /\ (fmt = [fmt_cmd] \/ fmt = [fmt_cmd; fmt_fix_cmd]
                 \/ fmt = [fmt_cmd; fmt_fix_cmd; fmt_cmd])).
  { destruct Hf as [Hf | [Hf | Hf]]; eexists; (split; [exact Hf |]); auto. }
  destruct Hfmt as (fmt & Hwf & Hfmt).
  exists install, fmt. split; [|split; assumption].
  rewrite Hcargo, Hc, Hwf, Hwt, <- !app_assoc. reflexivity.
Qed.

End StageOrder.

(** ** Further properties: the straight-line pipeline and [main] *)

Section Outcomes.

Variable run_process : World -> list string -> Outcome * (string -> bool).
Variable os_error : World -> OsOp -> bool.
Variable read_toml : string -> TomlFile.

(** When the format check and clippy do not exit non-zero, the result of
    [build] is that of the build command: True on exit 0, False on a
    non-zero exit, and an uncaught [FileNotFoundError] when cargo is not
    installed (the compile stage has no skip path). *)
Theorem build_straight_line (self : Builder) (w wt : World)
    (o_fmt o_lint o_build : Outcome) (d1 d2 d3 : string -> bool) :
  missing_deps (disk w) self = [] ->
  build_target_check run_process self w = (Ret tt, wt) ->
  run_process wt fmt_cmd = (o_fmt, d1) -> o_fmt <> NonZeroExit ->
  run_process (after wt fmt_cmd d1) clippy_cmd = (o_lint, d2) ->
  o_lint <> NonZeroExit ->
  run_process (after (after wt fmt_cmd d1) clippy_cmd d2) (build_cmd self)
  = (o_build, d3) ->
  build run_process self w
  = (match o_build with
     | Completed _ => Ret true
     | NonZeroExit => Ret false
     | NotFound => Raise FileNotFoundError
     end,
     after (after (after wt fmt_cmd d1) clippy_cmd d2) (build_cmd self) d3).
Proof.
  intros Hdeps Ht Hf Hfo Hl Hlo Hb.
  rewrite (build_unfold run_process self w wt Hdeps Ht).
  unfold build_fmt, lint_and_compile, build_clippy, build_cargo,
    try_except, mbind, M_bind.
  rewrite (subprocess_run_eq _ _ _ _ _ Hf).
  destruct o_fmt; try contradiction; cbn [mret M_ret];
    rewrite (subprocess_run_eq _ _ _ _ _ Hl);
    destruct o_lint; try contradiction; cbn [mret M_ret];
    rewrite (subprocess_run_eq _ _ _ _ _ Hb);
    now destruct o_build.
Qed.

(** Without [--clean], once the builder is constructed: a [build] that
    returns False ends the process with [sys.exit(1)] in the world
    [build] left, without attempting the copy; an exception leaving
    [build] is uncaught; after a [build] that returns True the copy
    decides.  The exit code is 0 exactly when both returned True. *)
Theorem main_build_path (args : Args) (w w1 : World) (self : Builder) :
  arg_clean args = false ->
  __init__ read_toml (arg_config args) w = (Ret self, w1) ->
  (forall w2, build run_process self w1 = (Ret false, w2) ->
              main run_process os_error read_toml args w = (SysExit 1, w2))
  /\ (forall e w2, build run_process self w1 = (Raise e, w2) ->
                   main run_process os_error read_toml args w = (Uncaught e, w2))
  /\ (forall w2, build run_process self w1 = (Ret true, w2) ->
                 main run_process os_error read_toml args w
                 = match copy_binary os_error self w2 with
                   | (Ret true, w3) => (Returned, w3)
                   | (Ret false, w3) => (SysExit 1, w3)
                   | (Raise e, w3) => (Uncaught e, w3)
                   end)
  /\ (exit_code (main run_process os_error read_toml args w).1 = 0%Z
      <-> exists w2 w3,
            build run_process self w1 = (Ret true, w2)
            /\ copy_binary os_error self w2 = (Ret true, w3)).
Proof.
  intros Hclean Hinit. unfold main. rewrite Hinit, Hclean.
  unfold build_only_flow, mbind, M_bind.
  split; [intros w2 ->; reflexivity |].
  split; [intros e w2 ->; reflexivity |].
  split.
  - intros w2 ->. cbn [negb mret M_ret].
    destruct (copy_binary os_error self w2) as [[[|]|e] w3]; reflexivity.
  - destruct (build run_process self w1) as [[[|]|e] w2] eqn:Eb;
      cbn [negb mret M_ret].
    + destruct (copy_binary os_error self w2) as [[[|]|e] w3] eqn:Ec;
        cbn [negb mret M_ret fst exit_code]; split;
        try discriminate.
      * intros _. exists w2, w3. split; [reflexivity | exact Ec].
      * intros _. reflexivity.
      * intros (w2' & w3' & [= <-] & Hc). rewrite Hc in Ec. discriminate.
      * intros (w2' & w3' & [= <-] & Hc). rewrite Hc in Ec. discriminate.
    + cbn [fst exit_code]. split; [discriminate |].
      intros (? & ? & ? & _). discriminate.
    + cbn [fst exit_code]. split; [discriminate |].
      intros (? & ? & ? & _). discriminate.
Qed.

End Outcomes.

(** ** Further properties: staging and cleaning *)

Section StagingAndCleaning.

Variable run_process : World -> list string -> Outcome * (string -> bool).
Variable os_error : World -> OsOp -> bool.

(** [copy_binary], step by step. *)
Lemma copy_binary_unfold (self : Builder) (w : World) :
  copy_binary os_error self w
  = if disk w (source_path self) then
      if os_error w (Makedirs (output_dir self)) then (Raise OSError, w)
      else
        let w1 := mkWorld (environ w) (disk_add (output_dir self) (disk w))
                          (calls w) in
        if os_error w1 (Copy2 (source_path self) (dest_path self))
        then (Raise OSError, w1)
        else
          let w2 := mkWorld (environ w1) (disk_add (dest_path self) (disk w1))
                            (calls w1) in
          if os_error w2 (Getsize (dest_path self)) then (Raise OSError, w2)
          else (Ret true, w2)
    else (Ret false, w).
Proof.
  unfold copy_binary, path_exists, mbind, M_bind, os_op.
  destruct (disk w (source_path self)); cbn [negb mret M_ret]; [|reflexivity].
  destruct (os_error w (Makedirs (output_dir self))); [reflexivity |].
  cbv zeta. cbn [environ disk calls].
  destruct (os_error _ (Copy2 (source_path self) (dest_path self)));
    [reflexivity |].
  cbn [environ disk calls].
  destruct (os_error _ (Getsize (dest_path self))); reflexivity.
Qed.

(** [copy_binary] returns False exactly when the expected artifact
    target/<target>/release/<binary_name><suffix> does not exist, and then
    it has done nothing: the output directory is not even created.  When
    the artifact exists it returns True or is left by the exception of a
    file operation. *)
Theorem copy_binary_failures (self : Builder) (w : World) :
  let artifact :=
    "target/" +:+ target self +:+ "/release/" +:+ binary_name self
    +:+ _binary_suffix self in
  (disk w artifact = false -> copy_binary os_error self w = (Ret false, w))
  /\ ((copy_binary os_error self w).1 = Ret false -> disk w artifact = false)
  /\ (forall e, (copy_binary os_error self w).1 = Raise e ->
                disk w artifact = true)
  /\ (disk w artifact = true ->
      (copy_binary os_error self w).1 = Ret true
      \/ exists e, (copy_binary os_error self w).1 = Raise e).
Proof.
  intros artifact.
  change artifact with (source_path self). clear artifact.
  rewrite copy_binary_unfold. cbv zeta.
  destruct (disk w (source_path self)) eqn:Hsrc.
  - split; [discriminate |].
    destruct (os_error w (Makedirs (output_dir self)));
      [|destruct (os_error _ (Copy2 (source_path self) (dest_path self)));
        [|destruct (os_error _ (Getsize (dest_path self)))]];
      cbn [fst]; (split; [discriminate |]); (split; [reflexivity |]);
      intros _; eauto.
  - split; [reflexivity |]. split; [reflexivity |].
    split; discriminate.
Qed.

Lemma disk_rmtree_gone (p : string) (d : string -> bool) :
  disk_rmtree p d p = false
  /\ (forall name, disk_rmtree p d (p +:+ "/" +:+ name) = false)
  /\ (forall q, disk_rmtree p d q = true -> d q = true).
Proof.
  unfold disk_rmtree. split; [|split].
  - rewrite String.eqb_refl. apply andb_false_r.
  - intros name.
    assert (Hp : String.prefix (p +:+ "/") (p +:+ "/" +:+ name) = true).
    { apply prefix_spec. exists name. now rewrite string_app_assoc. }
    rewrite Hp, orb_true_r. apply andb_false_r.
  - intros q H. now apply andb_true_iff in H as [H _].
Qed.

(** [clean] by how [cargo clean] ends.  When cargo is not installed the
    [FileNotFoundError] leaves [clean] and the output directory is not
    removed.  Otherwise, whatever the exit status: if the output
    directory does not exist [clean] returns without any file operation;
    and whenever [clean] returns, the output directory does not exist,
    what was below it has been removed with it, and nothing has appeared
    on disk. *)
Theorem clean_removes_output (self : Builder) (w : World) (o : Outcome)
    (d : string -> bool) :
  run_process w clean_cmd = (o, d) ->
  (o = NotFound ->
   clean run_process os_error self w
   = (Raise FileNotFoundError, after w clean_cmd d))
  /\ (o <> NotFound -> d (output_dir self) = false ->
      clean run_process os_error self w = (Ret tt, after w clean_cmd d))
  /\ (o <> NotFound ->
      forall w', clean run_process os_error self w = (Ret tt, w') ->
                 disk w' (output_dir self) = false
                 /\ (d (output_dir self) = true ->
                     forall name,
                       disk w' (output_dir self +:+ "/" +:+ name) = false)
                 /\ (forall q, disk w' q = true -> d q = true)).
Proof.
  intros Hrun. rewrite (clean_unfold run_process os_error self w o d Hrun).
  split; [intros ->; reflexivity |].
  split.
  - intros Ho Hd. rewrite Hd. now destruct o.
  - intros Ho w' Hclean.
    assert (Hc : (if d (output_dir self)
                  then os_op os_error (Rmtree (output_dir self))
                         (after w clean_cmd d)
                  else (Ret tt, after w clean_cmd d)) = (Ret tt, w')).
    { destruct o; [exact Hclean | exact Hclean | contradiction]. }
    clear Hclean. destruct (d (output_dir self)) eqn:Hd.
    + apply os_op_ok in Hc as (_ & _ & ->). cbn [after disk].
      destruct (disk_rmtree_gone (output_dir self) d) as (H1 & H2 & H3).
      auto.
    + injection Hc as <-. cbn [after disk].
      split; [exact Hd |]. split; [discriminate | auto].
Qed.

End StagingAndCleaning.

(** ** Further properties: the constructor and the composer *)

Section ConstructorMore.

Variable read_toml : string -> TomlFile.

(** For a host-like target a readable configuration whose API level is
    absent or converts with [int()] always constructs: no toolchain path
    is demanded.  In native mode the constructor leaves the world exactly
    as it was (no variable is written); in every case it touches neither
    the disk nor any subprocess. *)
Theorem init_host_like_succeeds (path : string) (c : Config) (w : World) :
  read_toml path = Parsed c ->
  int_error (get_paths c) = None ->
  host_like (target (resolve (disk w) c)) ->
  exists w',
    __init__ read_toml path w = (Ret (resolve (disk w) c), w')
    /\ (native_build (resolve (disk w) c) = true -> w' = w)
    /\ disk w' = disk w /\ calls w' = calls w.
Proof.
  intros Hc Hint Hhost. rewrite init_unfold, Hc, Hint. cbv zeta.
  destruct (native_build (resolve (disk w) c)) eqn:Hn.
  - exists w. auto.
  - assert (Hp : toolchain_present (disk w)
                   (android_ndk_home (resolve (disk w) c))
                   (llvm_path (resolve (disk w) c)) = true).
    { apply looks_native_spec in Hhost.
      cbn [native_build resolve target android_ndk_home llvm_path] in *.
      unfold resolve_native in Hn. rewrite Hhost in Hn.
      now apply negb_false_iff in Hn. }
    unfold toolchain_present in Hp.
    apply andb_true_iff in Hp as [Hp _].
    apply andb_true_iff in Hp as [Hp _].
    apply andb_true_iff in Hp as [Ha Hl].
    rewrite Ha, Hl. cbn [negb].
    destruct (setup_environment_frame (resolve (disk w) c) w) as [env ->].
    eexists. split; [reflexivity |]. split; [discriminate |].
    split; reflexivity.
Qed.

(** The failures that come before the constructor looks at the target
    or the paths.  An exception of the loader leaves the constructor as
    it is.  On a parsed file, an API level that [int()] rejects makes
    the constructor raise [int()]'s exception, whatever the target and
    the toolchain paths are.  In each case the world is left as it was,
    and [main] ends with that exception uncaught, with [--clean] as
    without. *)
Theorem init_failure_atomic (path : string) (w : World) :
  (read_toml path = NoSuchFile ->
   __init__ read_toml path w = (Raise FileNotFoundError, w))
  /\ (read_toml path = Malformed ->
      __init__ read_toml path w = (Raise TOMLDecodeError, w))
  /\ (forall e, read_toml path = Unreadable e ->
                __init__ read_toml path w = (Raise e, w))
  /\ (forall c e,
        read_toml path = Parsed c -> int_error (get_paths c) = Some e ->
        __init__ read_toml path w = (Raise e, w))
  /\ (forall run_process os_error clean_flag e,
        __init__ read_toml path w = (Raise e, w) ->
        main run_process os_error read_toml (mkArgs clean_flag path) w
        = (Uncaught e, w)).
Proof.
  rewrite init_unfold.
  split; [intros ->; reflexivity |].
  split; [intros ->; reflexivity |].
  split; [intros e ->; reflexivity |].
  split; [intros c e -> ->; reflexivity |].
  intros run_process os_error clean_flag e Hinit.
  unfold main. cbn [arg_config]. rewrite init_unfold, Hinit. reflexivity.
Qed.

(** What a cross-mode composition writes: the two roots, the archiver
    and libclang directory under the LLVM root, the bindgen arguments
    with the NDK sysroot include directory, and a [PATH] made of the LLVM
    bin directory, the NDK bin directory and the inherited [PATH] (empty
    when unset), joined by semicolons.  Every other variable keeps its
    value, and the disk and the subprocess history are untouched. *)
Theorem cross_environment_values (b : Builder) (w : World) (ndk llvm : string) :
  native_build b = false ->
  android_ndk_home b = Some ndk -> llvm_path b = Some llvm ->
  let w' := (_setup_environment b w).2 in
  environ w' !! "ANDROID_NDK_HOME" = Some ndk
  /\ environ w' !! "LLVM_PATH" = Some llvm
  /\ environ w' !! "CARGO_TARGET_AARCH64_LINUX_ANDROID_AR"
     = Some (llvm +:+ "/bin/llvm-ar.exe")
  /\ environ w' !! "LIBCLANG_PATH" = Some (llvm +:+ "/bin")
  /\ environ w' !! "BINDGEN_EXTRA_CLANG_ARGS"
     = Some ("--target=aarch64-linux-android -I" +:+ ndk
             +:+ "/toolchains/llvm/prebuilt/windows-x86_64/sysroot/usr/include")
  /\ environ w' !! "PATH"
     = Some (llvm +:+ "/bin;" +:+ ndk
             +:+ "/toolchains/llvm/prebuilt/windows-x86_64/bin;"
             +:+ default "" (environ w !! "PATH"))
  /\ (forall k,
        ~ In k ["ANDROID_NDK_HOME"; "LLVM_PATH";
                "CARGO_TARGET_AARCH64_LINUX_ANDROID_LINKER";
                "CARGO_TARGET_AARCH64_LINUX_ANDROID_AR"; "LIBCLANG_PATH";
                "BINDGEN_EXTRA_CLANG_ARGS"; "PATH"] ->
        environ w' !! k = environ w !! k)
  /\ disk w' = disk w /\ calls w' = calls w.
Proof.
  intros Hn Hndk Hllvm w'. subst w'.
  rewrite (setup_environment_cross b w Hn).
  cbn [snd environ disk calls cross_env_vars foldl fst].
  rewrite Hndk, Hllvm. cbn [Py.str].
  repeat split; try (now simplify_map_eq).
  - rewrite lookup_insert_eq. f_equal.
    rewrite new_path_unfold, Hndk, Hllvm. cbn [Py.str].
    rewrite !string_app_assoc. reflexivity.
  - intros k Hk. cbn [In] in Hk.
    rewrite !lookup_insert.
    repeat (case_decide; [exfalso; apply Hk; subst; auto 10 |]).
    reflexivity.
Qed.

(** A target ending in windows-msvc or windows-gnu gets the suffix
    [.exe], so the staged file is <output_dir>/<binary_name>.exe. *)
Theorem windows_host_suffix (self : Builder) :
  (exists pre, target self = pre +:+ "windows-msvc")
  \/ (exists pre, target self = pre +:+ "windows-gnu") ->
  _binary_suffix self = ".exe"
  /\ dest_path self = output_dir self +:+ "/" +:+ binary_name self +:+ ".exe".
Proof.
  intros H.
  assert (Hw : Py.contains "windows" (target self) = true).
  { apply contains_spec. destruct H as [[pre ->] | [pre ->]].
    - exists pre, "-msvc". reflexivity.
    - exists pre, "-gnu". reflexivity. }
  assert (Hs : _binary_suffix self = ".exe").
  { unfold _binary_suffix, _is_windows_target. now rewrite Hw. }
  split; [exact Hs |]. unfold dest_path. now rewrite Hs.
Qed.

End ConstructorMore.

(** ** Further properties: lint failure *)

Section LintFailure.

Variable run_process : World -> list string -> Outcome * (string -> bool).

(** When the format gate lets the pipeline through, by whichever path
    (a clean first check, a missing tool, or a fix followed by a second
    check that passes), and clippy exits non-zero, [build] returns False
    right after the clippy call: the build command is never run. *)
Theorem lint_failure_stops_build (self : Builder) (w wt wf : World)
    (d : string -> bool) :
  missing_deps (disk w) self = [] ->
  build_target_check run_process self w = (Ret tt, wt) ->
  build_fmt run_process self wt = (Ret None, wf) ->
  run_process wf clippy_cmd = (NonZeroExit, d) ->
  build run_process self w = (Ret false, after wf clippy_cmd d)
  /\ calls (build run_process self w).2 = calls wf ++ [clippy_cmd].
Proof.
  intros Hdeps Ht Hf Hl.
  assert (Hb : build run_process self w = (Ret false, after wf clippy_cmd d)).
  { rewrite (build_unfold run_process self w wt Hdeps Ht), Hf.
    exact (proj2 (proj1 (lint_gate run_process self _ _ _ Hl) eq_refl)). }
  split; [exact Hb |].
  rewrite Hb. reflexivity.
Qed.

End LintFailure.

(** ** Further scenarios *)

Section MoreScenarios.

Import Examples.

(** Check and fix both exit non-zero. *)
Definition fmt_always_fails : World -> list string -> Outcome * (string -> bool) :=
  fun w cmd =>
    match cmd with
    | "cargo" :: "fmt" :: _ => (NonZeroExit, disk w)
    | _ => (Completed "x86_64-pc-windows-msvc", disk w)
    end.

(** Clippy reports a warning. *)
Definition clippy_fails : World -> list string -> Outcome * (string -> bool) :=
  fun w cmd =>
    if decide (cmd = clippy_cmd) then (NonZeroExit, disk w)
    else (Completed "x86_64-pc-windows-msvc", disk w).

(** The first format check fails, the fix repairs it, clippy reports a
    warning. *)
Definition fixed_but_lint_fails : World -> list string -> Outcome * (string -> bool) :=
  fun w cmd =>
    if decide (cmd = fmt_cmd) then
      if decide (fmt_fix_cmd ∈ calls w) then (Completed "", disk w)
      else (NonZeroExit, disk w)
    else if decide (cmd = clippy_cmd) then (NonZeroExit, disk w)
    else (Completed "x86_64-pc-windows-msvc", disk w).

(** An API level that is not a numeral. *)
Definition cfg_bad_level : Config :=
  mkConfig (Some (mkPaths None None
                    (Some (IntValueError
                             "invalid literal for int() with base 10: 'abc'"))
                    None None None)).

Definition msvc_out : string := "x86_64-pc-windows-msvc".

(** rustup lists one target per line; a no-break space separates words
    as well. *)
Example split_lines :
  Py.split ("aarch64-linux-android" +:+ String (Ascii.ascii_of_nat 10) ""
            +:+ "x86_64-pc-windows-msvc" +:+ String (Ascii.ascii_of_nat 10) "")
  = ["aarch64-linux-android"; "x86_64-pc-windows-msvc"].
Proof. vm_compute. reflexivity. Qed.

Example split_no_break_space :
  Py.split ("a" +:+ String (Ascii.ascii_of_nat 194)
                      (String (Ascii.ascii_of_nat 160) "b")
            +:+ String (Ascii.ascii_of_nat 227)
                  (String (Ascii.ascii_of_nat 128)
                     (String (Ascii.ascii_of_nat 128) "c")))
  = ["a"; "b"; "c"].
Proof. vm_compute. reflexivity. Qed.

Lemma target_check_advisory_witness :
  build_target_check all_succeed b_default world0
  = (Ret tt, after world0 rustup_list empty_disk).
Proof.
  refine (proj1 (proj2 (target_check_advisory all_succeed b_default world0
                          (Completed msvc_out) empty_disk eq_refl))
            msvc_out eq_refl _).
  left. reflexivity.
Defined.

Lemma init_default :
  __init__ (toml_of cfg_default) "build_config.toml" world0
  = (Ret b_default, world0).
Proof. rewrite init_unfold. reflexivity. Qed.

Lemma fmt_gate_clean_witness :
  build_fmt all_succeed b_default w_listed
  = (Ret None, after w_listed fmt_cmd empty_disk).
Proof.
  refine (proj1 (fmt_gate_clean all_succeed b_default world0 w_listed
                   (Completed msvc_out) empty_disk
                   eq_refl eq_refl eq_refl _)).
  discriminate.
Defined.

Lemma fmt_fix_failure_witness :
  build fmt_always_fails b_default world0
  = (Ret false, after (after w_listed fmt_cmd empty_disk) fmt_fix_cmd empty_disk).
Proof.
  exact (proj1 (proj2 (fmt_fix_failure fmt_always_fails b_default world0
                         w_listed NonZeroExit empty_disk empty_disk
                         eq_refl eq_refl eq_refl eq_refl)) eq_refl).
Defined.

Lemma lint_failure_stops_build_witness :
  build fixed_but_lint_fails b_default world0
  = (Ret false, after w_rechecked clippy_cmd empty_disk).
Proof.
  exact (proj1 (lint_failure_stops_build fixed_but_lint_fails b_default
                  world0 w_listed w_rechecked empty_disk
                  eq_refl eq_refl eq_refl eq_refl)).
Defined.

Lemma build_true_stages_witness :
  missing_deps (disk world0) b_default = []
  /\ exists install fmt,
       calls (build all_succeed b_default world0).2
       = calls world0 ++ [rustup_list] ++ install ++ fmt
                      ++ [clippy_cmd; build_cmd b_default]
       /\ (install = [] \/ install = [rustup_add b_default])
       /\ (fmt = [fmt_cmd] \/ fmt = [fmt_cmd; fmt_fix_cmd]
           \/ fmt = [fmt_cmd; fmt_fix_cmd; fmt_cmd]).
Proof.
  exact (build_true_stages all_succeed b_default world0
           (build all_succeed b_default world0).2 eq_refl).
Defined.

Lemma build_straight_line_witness :
  build all_succeed b_default world0
  = (Ret true,
     after (after (after w_listed fmt_cmd empty_disk) clippy_cmd empty_disk)
           (build_cmd b_default) empty_disk).
Proof.
  refine (build_straight_line all_succeed b_default world0 w_listed
            (Completed msvc_out) (Completed msvc_out) (Completed msvc_out)
            empty_disk empty_disk empty_disk
            eq_refl eq_refl eq_refl _ eq_refl _ eq_refl);
    discriminate.
Defined.

Lemma main_build_path_witness :
  main never_formatted os_fine (toml_of cfg_default) args_build world0
  = (SysExit 1, w_rechecked).
Proof.
  exact (proj1 (main_build_path never_formatted os_fine (toml_of cfg_default)
                  args_build world0 world0 b_default eq_refl init_default)
           w_rechecked eq_refl).
Defined.

Lemma clean_removes_output_witness :
  clean all_succeed os_fine b_default world0
  = (Ret tt, after world0 clean_cmd empty_disk).
Proof.
  refine (proj1 (proj2 (clean_removes_output all_succeed os_fine b_default
                          world0 (Completed msvc_out) empty_disk eq_refl))
            _ eq_refl).
  discriminate.
Defined.

Lemma init_host_like_succeeds_witness :
  exists w',
    __init__ (toml_of cfg_default) "build_config.toml" world0
    = (Ret (resolve (disk world0) cfg_default), w')
    /\ (native_build (resolve (disk world0) cfg_default) = true -> w' = world0)
    /\ disk w' = disk world0 /\ calls w' = calls world0.
Proof.
  refine (init_host_like_succeeds (toml_of cfg_default) "build_config.toml"
            cfg_default world0 eq_refl eq_refl _).
  left. exists "x86_64-pc-". reflexivity.
Defined.

Lemma init_failure_atomic_witness :
  __init__ (toml_of cfg_bad_level) "build_config.toml" world0
  = (Raise (ValueError "invalid literal for int() with base 10: 'abc'"),
     world0).
Proof.
  exact (proj1 (proj2 (proj2 (proj2
           (init_failure_atomic (toml_of cfg_bad_level) "build_config.toml"
              world0))))
           cfg_bad_level _ eq_refl eq_refl).
Defined.

Lemma cross_environment_values_witness :
  environ (_setup_environment b_android world0).2 !! "PATH"
  = Some "C:/llvm/bin;C:/ndk/toolchains/llvm/prebuilt/windows-x86_64/bin;C:/Windows".
Proof.
  exact (proj1 (proj2 (proj2 (proj2 (proj2 (proj2
           (cross_environment_values b_android world0 "C:/ndk" "C:/llvm"
              eq_refl eq_refl eq_refl))))))).
Defined.

Lemma windows_host_suffix_witness :
  _binary_suffix b_default = ".exe"
  /\ dest_path b_default = "output/fpid.exe".
Proof.
  refine (windows_host_suffix b_default _).
  left. exists "x86_64-pc-". reflexivity.
Defined.

End MoreScenarios.
